(** * Traffic-detector datasets: export, import and equality

    A shallow embedding of [flow_processing_input.py] and
    [flow_processed_output.py]: the four collection classes
    [DetectorsLocation], [GroundFlowData], [DetectorIdToRoadSections] and
    [OutputFlowDataSet], with their constructors, [export_to_file],
    [_import_from_file] and [__eq__]; and of the dataset generators
    [createDLDataset] and [create_DITRS_Dataset] of the two test modules.

    The classes are dynamically typed: a field holds whatever was assigned
    to it or unpickled into it.  Fields therefore hold values of a small
    universe of Python objects ([pyobj]), attribute and index accesses may
    raise, and the methods live in an exception monad ([result]) or a
    state-and-exception monad ([M]) over the file system and the warning
    log ([world]) or over the instance being mutated.

    What the embedding takes from Python and its libraries:
    - objects are values: two objects are never the same object, so that
      [==] never succeeds by identity (an unpickled object is a new
      object, and the comparisons of interest are between an instance and
      one built or imported independently of it).  Python's comparison
      of dicts, lists and tuples takes an item that is the same object
      on both sides as equal, which differs from [==] on the item only
      for NaN: the statements about [__eq__] on flow data therefore
      leave NaN volumes out;
    - a str is ASCII text, one byte for each character;
    - a file is the sequence of objects that [pickle.load] returns from
      it, possibly followed by bytes that are no pickle, on which
      [pickle.load] raises an exception that depends on the bytes; and
      [pickle.load] returns an object equal in structure to the one that
      [pickle.dump] was given;
    - the file system is a flat map from paths to files.  A path stands
      for the file that it names: two different paths are two different
      files (the several spellings of one path, and links, are left
      out).  Every path but the empty one can be opened for writing
      (directories, permissions and the other reasons for which [open]
      fails are left out): statements about a successful export say that
      the path can be opened for writing;
    - [warnings.warn] appends to a log: the log holds the calls of
      [warnings.warn], whatever the warning filters in force then show;
    - the calls of [random] draw from a given source of numbers ([rng]):
      [randint(a, b)] maps the next integer of the source into [a..b],
      [uniform(a, b)] returns the next float of the source. *)

From Stdlib Require Import ZArith String List.
From Stdlib Require Import Floats.SpecFloat.
From stdpp Require Import base gmap strings list.

Local Open Scope string_scope.
Local Open Scope Z_scope.
Set Warnings "-register-all".

(** ** Python objects *)

(** [class Direction(Enum)] *)
Inductive Direction : Set :=
| north_bound   (* = 1 *)
| east_bound    (* = 2 *)
| south_bound   (* = 3 *)
| west_bound.   (* = 4 *)

Global Instance Direction_eq_dec : EqDecision Direction.
Proof. solve_decision. Defined.

(** [datetime.datetime] and [datetime.time] values, in microseconds.  An
    object of one class never equals an object of the other. *)
Inductive timestamp : Set :=
| Datetime (us : Z)
| Time (us : Z).

Global Instance timestamp_eq_dec : EqDecision timestamp.
Proof. solve_decision. Defined.

(** The three record classes.  They declare their attributes but define
    neither [__init__] nor [__eq__]. *)
Inductive pyclass : Set :=
| DetectorFlowData_class
| DetectorIdToRoadSection_class
| OutputFlowData_class.

Global Instance pyclass_eq_dec : EqDecision pyclass.
Proof. solve_decision. Defined.

(** The objects that the datasets are made of and that a file can hold.
    A float is an IEEE 754 value ([spec_float], with NaN); a dict is the
    list of its items in insertion order; an instance of a record class
    carries the attributes assigned to it so far. *)
Inductive pyobj : Type :=
| PInt (n : Z)
| PFloat (f : spec_float)
| PStr (s : string)
| PTimestamp (t : timestamp)
| PEnum (d : Direction)
| PPoint (x y : spec_float)                 (* shapely.geometry.Point *)
| PTuple (items : list pyobj)
| PList (items : list pyobj)
| PDict (items : list (pyobj * pyobj))
| PInstance (cls : pyclass) (attrs : list (string * pyobj)).

(** ** Exceptions *)

Inductive exn : Type :=
| Exception (msg : string)   (* [raise Exception(msg)] in the source *)
| AttributeError
| IndexError
| KeyError
| TypeError
| EOFError                   (* pickle.load at the end of the stream *)
| UnpicklingError            (* pickle.UnpicklingError *)
| FileNotFoundError
| OtherError (class_name : string).
                             (* an instance of another exception class,
                                such as ValueError or ImportError *)

Inductive result (A : Type) : Type :=
| Ok (a : A)
| Raise (e : exn).
Arguments Ok {A} a.
Arguments Raise {A} e.

Global Instance result_ret : MRet result := @Ok.
Global Instance result_bind : MBind result :=
  λ A B f m, match m with Ok a => f a | Raise e => Raise e end.
Global Instance result_fmap : FMap result :=
  λ A B f m, match m with Ok a => Ok (f a) | Raise e => Raise e end.

(** State and exceptions: a raise keeps the state reached so far. *)
Definition M (Σ A : Type) : Type := Σ → result A * Σ.

Global Instance M_ret Σ : MRet (M Σ) := λ A a s, (Ok a, s).
Global Instance M_bind Σ : MBind (M Σ) :=
  λ A B f m s,
    match m s with
    | (Ok a, s') => f a s'
    | (Raise e, s') => (Raise e, s')
    end.

Definition raise {Σ A} (e : exn) : M Σ A := λ s, (Raise e, s).
Definition lift {Σ A} (r : result A) : M Σ A := λ s, (r, s).
Definition modify {Σ} (f : Σ → Σ) : M Σ unit := λ s, (Ok tt, f s).

(** ** Operations on objects *)

Definition all2 {A B} (f : A → B → bool) : list A → list B → bool :=
  fix go xs ys :=
    match xs, ys with
    | [], [] => true
    | x :: xs', y :: ys' => f x y && go xs' ys'
    | _, _ => false
    end.

Definition assoc_find {K V} (p : K → bool) : list (K * V) → option V :=
  fix go kvs :=
    match kvs with
    | [] => None
    | (k, v) :: kvs' => if p k then Some v else go kvs'
    end.

(** [n == f] for an int and a float: Python compares the exact values. *)
Definition int_float_eqb (n : Z) (f : spec_float) : bool :=
  match f with
  | S754_zero _ => n =? 0
  | S754_finite s m e =>
      let v := if s then Z.neg m else Z.pos m in
      if 0 <=? e then n =? v * 2 ^ e else n * 2 ^ (- e) =? v
  | S754_infinity _ | S754_nan => false
  end.

(** [a == b] for two distinct objects.  Floats compare as IEEE 754 does
    (NaN differs from everything, itself included); tuples and lists
    compare item by item; dicts compare by size and then by key lookup;
    points compare by coordinates; instances of the record classes inherit
    [object.__eq__], which is identity, so two distinct instances differ. *)
Fixpoint py_eq (a b : pyobj) {struct a} : bool :=
  match a, b with
  | PInt m, PInt n => m =? n
  | PInt m, PFloat f => int_float_eqb m f
  | PFloat f, PInt n => int_float_eqb n f
  | PFloat f, PFloat g => SFeqb f g
  | PStr s, PStr t => String.eqb s t
  | PTimestamp s, PTimestamp t => bool_decide (s = t)
  | PEnum d, PEnum e => bool_decide (d = e)
  | PPoint x y, PPoint x' y' => SFeqb x x' && SFeqb y y'
  | PTuple xs, PTuple ys => all2 py_eq xs ys
  | PList xs, PList ys => all2 py_eq xs ys
  | PDict kvs, PDict kvs' =>
      (length kvs =? length kvs')%nat &&
      forallb (λ kv, match assoc_find (py_eq (fst kv)) kvs' with
                     | Some v' => py_eq (snd kv) v'
                     | None => false
                     end) kvs
  | _, _ => false
  end.

(** [a != b] *)
Definition py_ne (a b : pyobj) : bool := negb (py_eq a b).

(** [len(v)]; a str is ASCII text. *)
Definition py_len (v : pyobj) : result nat :=
  match v with
  | PStr s => Ok (String.length s)
  | PTuple xs | PList xs => Ok (length xs)
  | PDict kvs => Ok (length kvs)
  | _ => Raise TypeError
  end.

(** [xs[i]] on a sequence: a negative index counts from the end. *)
Definition seq_index {A} (xs : list A) (i : Z) : result A :=
  let j := if i <? 0 then i + Z.of_nat (length xs) else i in
  if j <? 0 then Raise IndexError
  else match xs !! Z.to_nat j with
       | Some x => Ok x
       | None => Raise IndexError
       end.

Definition string_chars (s : string) : list pyobj :=
  (λ c, PStr (String c EmptyString)) <$> list_ascii_of_string s.

(** [hash(v)] succeeds, which a dict lookup needs: lists and dicts are
    unhashable, and so are the tuples that hold one.  (A [Point] is taken
    to be hashable, as it is in Shapely 2.) *)
Fixpoint hashable (v : pyobj) : bool :=
  match v with
  | PList _ | PDict _ => false
  | PTuple items => forallb hashable items
  | _ => true
  end.

(** [v[i]] *)
Definition py_getitem (v i : pyobj) : result pyobj :=
  match v, i with
  | PDict kvs, _ =>
      if hashable i then
        match assoc_find (py_eq i) kvs with
        | Some x => Ok x
        | None => Raise KeyError
        end
      else Raise TypeError
  | PList xs, PInt n | PTuple xs, PInt n => seq_index xs n
  | PStr s, PInt n => seq_index (string_chars s) n
  | _, _ => Raise TypeError
  end.

(** [k in v] *)
Definition py_contains (v k : pyobj) : result bool :=
  match v with
  | PDict kvs =>
      if hashable k then Ok (bool_decide (is_Some (assoc_find (V:=pyobj) (py_eq k) kvs)))
      else Raise TypeError
  | PList xs | PTuple xs => Ok (existsb (py_eq k) xs)
  | _ => Raise TypeError
  end.

(** The objects that [for key in v] runs through. *)
Definition py_iter (v : pyobj) : result (list pyobj) :=
  match v with
  | PDict kvs => Ok (fst <$> kvs)
  | PList xs | PTuple xs => Ok xs
  | PStr s => Ok (string_chars s)
  | _ => Raise TypeError
  end.

(** [v.name] *)
Definition py_getattr (v : pyobj) (name : string) : result pyobj :=
  match v with
  | PPoint x y =>
      if String.eqb name "x" then Ok (PFloat x)
      else if String.eqb name "y" then Ok (PFloat y)
      else Raise AttributeError
  | PInstance _ attrs =>
      match assoc_find (String.eqb name) attrs with
      | Some a => Ok a
      | None => Raise AttributeError
      end
  | _ => Raise AttributeError
  end.

(** Reading an attribute of [self] that may not have been assigned yet. *)
Definition attribute {A} (field : option A) : result A :=
  match field with
  | Some v => Ok v
  | None => Raise AttributeError
  end.

(** [isinstance(v, dict)], [isinstance(v, int)], [isinstance(v, list)] and
    [isinstance(v, C)] for a record class [C]. *)
Definition isinstance_dict (v : pyobj) : bool :=
  match v with PDict _ => true | _ => false end.
Definition isinstance_int (v : pyobj) : bool :=
  match v with PInt _ => true | _ => false end.
Definition isinstance_list (v : pyobj) : bool :=
  match v with PList _ => true | _ => false end.
Definition isinstance (v : pyobj) (c : pyclass) : bool :=
  match v with PInstance c' _ => bool_decide (c' = c) | _ => false end.

(** [range(n)] *)
Definition py_range (n : nat) : list pyobj := (λ i, PInt (Z.of_nat i)) <$> seq 0 n.

(** [p and q], [p or q]: the right operand is evaluated only when needed. *)
Definition and_lazy (p q : result bool) : result bool :=
  b ← p; if b : bool then q else Ok false.
Definition or_lazy (p q : result bool) : result bool :=
  b ← p; if b : bool then Ok true else q.
Infix "&&&" := and_lazy (at level 40, left associativity).
Infix "|||" := or_lazy (at level 50, left associativity).

(** [a.name == b.name] and [a.name != b.name] *)
Definition attr_eq (a b : pyobj) (name : string) : result bool :=
  x ← py_getattr a name; y ← py_getattr b name; Ok (py_eq x y).
Definition attr_ne (a b : pyobj) (name : string) : result bool :=
  x ← py_getattr a name; y ← py_getattr b name; Ok (py_ne x y).

(** ** Files, pickle and warnings *)

(** A file, read as a pickle stream: the objects that successive
    [pickle.load] calls return and, when bytes that are not a pickle
    follow them, the exception that [pickle.load] raises on these bytes.
    Which exception that is depends on the bytes: on the text
    ['This is not a serialized detector flow data'] of the unit tests it
    is [pickle.UnpicklingError] (the first byte is read as an opcode that
    announces more data than the file holds), on ['I am not a pickle'] it
    is [ValueError], on other bytes [EOFError], [ImportError], ... *)
Record file : Type := Stored { stream : list pyobj; garbage : option exn }.

(** Bytes that are not a pickle follow the objects of the stream. *)
Definition corrupt (f : file) : bool :=
  match garbage f with Some _ => true | None => false end.

(** [File objs false] is a file that holds the pickles of [objs] and
    nothing else, such as [export_to_file] writes; [File objs true] is
    one in which they are followed by bytes on which [pickle.load] raises
    [UnpicklingError], such as the text files of the unit tests. *)
Definition File (stream : list pyobj) (corrupt : bool) : file :=
  Stored stream (if corrupt then Some UnpicklingError else None).

(** The file system is a flat map from paths to files, in which a path
    stands for the file that it names and every path but the empty one
    can be opened for writing; [warnings] is the log of the calls of
    [warnings.warn] so far, oldest first. *)
Record world : Type := World { fs : gmap string file; warnings : list string }.

Definition file_at (w : world) (filepath : string) : option file :=
  if String.eqb filepath "" then None else fs w !! filepath.

(** [path.exists(filepath)] *)
Definition path_exists (filepath : string) : M world bool :=
  λ w, (Ok (bool_decide (is_Some (file_at w filepath))), w).

(** [warnings.warn(msg)] *)
Definition warnings_warn (msg : string) : M world unit :=
  modify (λ w, World (fs w) (warnings w ++ [msg])).

(** [open(filepath, 'wb')]: creates the file or truncates it.  The handle
    is the path. *)
Definition open_wb (filepath : string) : M world string :=
  if String.eqb filepath "" then raise FileNotFoundError
  else
    modify (λ w, World (<[filepath := File [] false]> (fs w)) (warnings w));;
    mret filepath.

(** The path can be opened for writing: [open(filepath, 'wb')] returns
    a handle. *)
Definition can_open_for_writing (w : world) (filepath : string) : Prop :=
  (open_wb filepath w).1 = Ok filepath.

(** [pickle.dump(obj, file)] appends [obj] to the stream. *)
Definition pickle_dump (obj : pyobj) (handle : string) : M world unit :=
  modify (λ w, World (alter (λ f, Stored (stream f ++ [obj]) (garbage f)) handle (fs w))
                     (warnings w)).

(** [open(filepath, 'rb')]: the handle is what remains to be read. *)
Definition open_rb (w : world) (filepath : string) : result file :=
  match file_at w filepath with
  | Some f => Ok f
  | None => Raise FileNotFoundError
  end.

(** [pickle.load(file)]: the next object and the advanced handle.  At
    the end of the objects it raises what the remaining bytes make it
    raise, and [EOFError] when no byte remains. *)
Definition pickle_load (handle : file) : result (pyobj * file) :=
  match stream handle with
  | obj :: rest => Ok (obj, Stored rest (garbage handle))
  | [] => match garbage handle with
          | Some e => Raise e
          | None => Raise EOFError
          end
  end.

Definition already_exists : string :=
  "File already exists at filepath. Overwriting file.".
Definition incorrect_data_type : string :=
  "File has incorrect data type. Import aborted.".

(** ** flow_processing_input.py *)

Module DetectorsLocation.

(** [year] is assigned by [__init__], so every instance has it;
    [detectors_location_dict] is only declared, and is unset until it
    is assigned or imported. *)
Record t : Type := Build { detectors_location_dict : option pyobj; year : pyobj }.

Definition export_to_file (self : t) (filepath : string) : M world unit :=
  d ← lift (attribute (detectors_location_dict self));
  n ← lift (py_len d);
  if (n =? 0)%nat then
    raise (Exception "DetectorsLocation has no data. Export aborted.")
  else
    found ← path_exists filepath;
    (if found : bool then warnings_warn already_exists else mret tt);;
    file ← open_wb filepath;
    d ← lift (attribute (detectors_location_dict self));
    pickle_dump d file;;
    pickle_dump (year self) file.

(** The state is [self]; the file system [w] is only read. *)
Definition _import_from_file (w : world) (filepath : string) : M t unit :=
  file ← lift (open_rb w filepath);
  '(imported_location_dict, file) ← lift (pickle_load file);
  '(imported_year, file) ← lift (pickle_load file);
  if isinstance_dict imported_location_dict && isinstance_int imported_year then
    modify (λ self, Build (Some imported_location_dict) (year self));;
    modify (λ self, Build (detectors_location_dict self) imported_year)
  else
    raise (Exception incorrect_data_type).

(** [DetectorsLocation(year, filepath)]: the new instance, or the
    exception that left the constructor. *)
Definition __init__ (year : pyobj) (filepath : string) (w : world) : result t :=
  let self := Build None year in
  if negb (String.eqb filepath "") then
    let (r, self) := _import_from_file w filepath self in
    _ ← r; Ok self
  else Ok self.

Fixpoint eq_loop (self other : t) (keys : list pyobj) : result bool :=
  match keys with
  | [] => Ok true
  | key :: keys =>
      other_dict ← attribute (detectors_location_dict other);
      found ← py_contains other_dict key;
      if found : bool then
        self_dict ← attribute (detectors_location_dict self);
        selfVal ← py_getitem self_dict key;
        selfDirection ← py_getitem selfVal (PInt 0);
        selfPoint ← py_getitem selfVal (PInt 1);
        other_dict ← attribute (detectors_location_dict other);
        otherVal ← py_getitem other_dict key;
        otherDirection ← py_getitem otherVal (PInt 0);
        otherPoint ← py_getitem otherVal (PInt 1);
        same ← Ok (py_eq selfDirection otherDirection)
               &&& attr_eq selfPoint otherPoint "x"
               &&& attr_eq selfPoint otherPoint "y";
        if negb same then Ok false else eq_loop self other keys
      else Ok false
  end.

Definition __eq__ (self other : t) : result bool :=
  if py_ne (year self) (year other) then Ok false
  else
    self_dict ← attribute (detectors_location_dict self);
    keys ← py_iter self_dict;
    eq_loop self other keys.

End DetectorsLocation.

Module GroundFlowData.

Record t : Type := Build { detector_flow_data : option pyobj }.

Definition export_to_file (self : t) (filepath : string) : M world unit :=
  d ← lift (attribute (detector_flow_data self));
  n ← lift (py_len d);
  if (n =? 0)%nat then
    raise (Exception "GroundFlowData has no data. Export aborted.")
  else
    found ← path_exists filepath;
    (if found : bool then warnings_warn already_exists else mret tt);;
    file ← open_wb filepath;
    d ← lift (attribute (detector_flow_data self));
    pickle_dump d file.

Definition _import_from_file (w : world) (filepath : string) : M t unit :=
  file ← lift (open_rb w filepath);
  '(imported_data, file) ← lift (pickle_load file);
  ok ← lift (Ok (isinstance_list imported_data)
             &&& (first ← py_getitem imported_data (PInt 0);
                  Ok (isinstance first DetectorFlowData_class)));
  if ok : bool then
    modify (λ self, Build (Some imported_data))
  else
    raise (Exception incorrect_data_type).

Definition __init__ (filepath : string) (w : world) : result t :=
  let self := Build None in
  if negb (String.eqb filepath "") then
    let (r, self) := _import_from_file w filepath self in
    _ ← r; Ok self
  else Ok self.

(** The loop does not stop at the first difference: it clears
    [equality] and goes on. *)
Fixpoint eq_loop (self other : t) (indices : list pyobj) (equality : bool)
  : result bool :=
  match indices with
  | [] => Ok equality
  | i :: indices =>
      self_list ← attribute (detector_flow_data self);
      this_detector ← py_getitem self_list i;
      other_list ← attribute (detector_flow_data other);
      other_detector ← py_getitem other_list i;
      differ ← attr_ne this_detector other_detector "detector_id"
               ||| attr_ne this_detector other_detector "direction"
               ||| attr_ne this_detector other_detector "flow_data"
               ||| attr_ne this_detector other_detector "name"
               ||| attr_ne this_detector other_detector "year";
      eq_loop self other indices (if differ : bool then false else equality)
  end.

Definition __eq__ (self other : t) : result bool :=
  self_list ← attribute (detector_flow_data self);
  n ← py_len self_list;
  other_list ← attribute (detector_flow_data other);
  n' ← py_len other_list;
  if negb (n =? n')%nat then Ok false
  else
    self_list ← attribute (detector_flow_data self);
    n ← py_len self_list;
    eq_loop self other (py_range n) true.

End GroundFlowData.

(** ** flow_processed_output.py *)

(** The truth value of a [str]: [if filepath:] *)
Definition str_truthy (s : string) : bool := negb (String.eqb s "").

Module DetectorIdToRoadSections.

Record t : Type := Build { aimsun_detector_locations : option pyobj }.

Definition export_to_file (self : t) (filepath : string) : M world unit :=
  d ← lift (attribute (aimsun_detector_locations self));
  n ← lift (py_len d);
  if (n =? 0)%nat then
    raise (Exception ("DetectorIdToRoadSections has no data." ++ "Export aborted."))
  else
    found ← path_exists filepath;
    (if found : bool then warnings_warn already_exists else mret tt);;
    file ← open_wb filepath;
    d ← lift (attribute (aimsun_detector_locations self));
    pickle_dump d file.

Definition _import_from_file (w : world) (filepath : string) : M t unit :=
  file ← lift (open_rb w filepath);
  '(imported_aimsun_detector_locations, file) ← lift (pickle_load file);
  ok ← lift (Ok (isinstance_list imported_aimsun_detector_locations)
             &&& (first ← py_getitem imported_aimsun_detector_locations (PInt 0);
                  Ok (isinstance first DetectorIdToRoadSection_class)));
  if ok : bool then
    modify (λ self, Build (Some imported_aimsun_detector_locations))
  else
    raise (Exception incorrect_data_type).

Definition __init__ (filepath : string) (w : world) : result t :=
  let self := Build None in
  if str_truthy filepath then
    let (r, self) := _import_from_file w filepath self in
    _ ← r; Ok self
  else Ok self.

Fixpoint eq_loop (self other : t) (indices : list pyobj) : result bool :=
  match indices with
  | [] => Ok true
  | i :: indices =>
      self_list ← attribute (aimsun_detector_locations self);
      selfVals ← py_getitem self_list i;
      other_list ← attribute (aimsun_detector_locations other);
      otherVals ← py_getitem other_list i;
      differ ← attr_ne selfVals otherVals "detector_id"
               ||| attr_ne selfVals otherVals "section_id";
      if differ : bool then Ok false else eq_loop self other indices
  end.

Definition __eq__ (self other : t) : result bool :=
  self_list ← attribute (aimsun_detector_locations self);
  n ← py_len self_list;
  other_list ← attribute (aimsun_detector_locations other);
  n' ← py_len other_list;
  if negb (n =? n')%nat then Ok false
  else
    self_list ← attribute (aimsun_detector_locations self);
    n ← py_len self_list;
    eq_loop self other (py_range n).

End DetectorIdToRoadSections.

Module OutputFlowDataSet.

(** [year] is declared, and no method assigns or reads it. *)
Record t : Type := Build { flow_data_set : option pyobj; year : option pyobj }.

Definition export_to_file (self : t) (filepath : string) : M world unit :=
  d ← lift (attribute (flow_data_set self));
  n ← lift (py_len d);
  if (n =? 0)%nat then
    raise (Exception "OutputFlowDataSet has no data. Export aborted.")
  else
    found ← path_exists filepath;
    (if found : bool then warnings_warn already_exists else mret tt);;
    file ← open_wb filepath;
    d ← lift (attribute (flow_data_set self));
    pickle_dump d file.

Definition _import_from_file (w : world) (filepath : string) : M t unit :=
  file ← lift (open_rb w filepath);
  '(imported_flow_data_set, file) ← lift (pickle_load file);
  ok ← lift (Ok (isinstance_list imported_flow_data_set)
             &&& (first ← py_getitem imported_flow_data_set (PInt 0);
                  Ok (isinstance first OutputFlowData_class)));
  if ok : bool then
    modify (λ self, Build (Some imported_flow_data_set) (year self))
  else
    raise (Exception incorrect_data_type).

Definition __init__ (filepath : string) (w : world) : result t :=
  let self := Build None None in
  if str_truthy filepath then
    let (r, self) := _import_from_file w filepath self in
    _ ← r; Ok self
  else Ok self.

(** The body is [pass]: the method returns without doing anything. *)
Definition export_to_aimsun_real_data_set_csv (self : t) (filepath : string)
  : M world unit :=
  mret tt.

Fixpoint eq_loop (self other : t) (indices : list pyobj) : result bool :=
  match indices with
  | [] => Ok true
  | i :: indices =>
      self_list ← attribute (flow_data_set self);
      selfVals ← py_getitem self_list i;
      other_list ← attribute (flow_data_set other);
      otherVals ← py_getitem other_list i;
      differ ← attr_ne selfVals otherVals "detector_id"
               ||| attr_ne selfVals otherVals "flow_data"
               ||| attr_ne selfVals otherVals "section_id";
      if differ : bool then Ok false else eq_loop self other indices
  end.

Definition __eq__ (self other : t) : result bool :=
  self_list ← attribute (flow_data_set self);
  n ← py_len self_list;
  other_list ← attribute (flow_data_set other);
  n' ← py_len other_list;
  if negb (n =? n')%nat then Ok false
  else
    self_list ← attribute (flow_data_set self);
    n ← py_len self_list;
    eq_loop self other (py_range n).

End OutputFlowDataSet.

(** ** The four classes together *)

(** An instance of one of the four collection classes; the methods below
    dispatch on the class of [self]. *)
Inductive collection : Type :=
| DL (self : DetectorsLocation.t)
| GFD (self : GroundFlowData.t)
| DITRS (self : DetectorIdToRoadSections.t)
| OFDS (self : OutputFlowDataSet.t).

(** The attribute that holds the dataset. *)
Definition primary_field (self : collection) : option pyobj :=
  match self with
  | DL x => DetectorsLocation.detectors_location_dict x
  | GFD x => GroundFlowData.detector_flow_data x
  | DITRS x => DetectorIdToRoadSections.aimsun_detector_locations x
  | OFDS x => OutputFlowDataSet.flow_data_set x
  end.

(** The attributes that a file carries, in the order of the file. *)
Definition persisted_fields (self : collection) : option (list pyobj) :=
  d ← primary_field self;
  match self with
  | DL x => Some [d; DetectorsLocation.year x]
  | _ => Some [d]
  end.

(** The attributes that a file does not carry. *)
Definition other_fields (self : collection) : list (option pyobj) :=
  match self with
  | OFDS x => [OutputFlowDataSet.year x]
  | _ => []
  end.

Definition no_data (self : collection) : string :=
  match self with
  | DL _ => "DetectorsLocation has no data. Export aborted."
  | GFD _ => "GroundFlowData has no data. Export aborted."
  | DITRS _ => "DetectorIdToRoadSections has no data.Export aborted."
  | OFDS _ => "OutputFlowDataSet has no data. Export aborted."
  end.

Definition export_to_file (self : collection) (filepath : string) : M world unit :=
  match self with
  | DL x => DetectorsLocation.export_to_file x filepath
  | GFD x => GroundFlowData.export_to_file x filepath
  | DITRS x => DetectorIdToRoadSections.export_to_file x filepath
  | OFDS x => OutputFlowDataSet.export_to_file x filepath
  end.

Definition _import_from_file (w : world) (filepath : string) : M collection unit :=
  λ self,
    match self with
    | DL x => prod_map id DL (DetectorsLocation._import_from_file w filepath x)
    | GFD x => prod_map id GFD (GroundFlowData._import_from_file w filepath x)
    | DITRS x =>
        prod_map id DITRS (DetectorIdToRoadSections._import_from_file w filepath x)
    | OFDS x => prod_map id OFDS (OutputFlowDataSet._import_from_file w filepath x)
    end.

(** [self == other] runs the [__eq__] of the class of [self], which reads
    the attributes of [other] by name.  With [other] of another class,
    the attributes that this class does not have are unset; the only
    attribute name that two classes share is [year], of
    [DetectorsLocation] and [OutputFlowDataSet], which
    [DetectorsLocation.__eq__] reads first. *)
Definition __eq__ (self other : collection) : result bool :=
  match self, other with
  | DL a, DL b => DetectorsLocation.__eq__ a b
  | DL a, OFDS b =>
      year ← attribute (OutputFlowDataSet.year b);
      DetectorsLocation.__eq__ a (DetectorsLocation.Build None year)
  | DL a, _ => Raise AttributeError
  | GFD a, GFD b => GroundFlowData.__eq__ a b
  | GFD a, _ => GroundFlowData.__eq__ a (GroundFlowData.Build None)
  | DITRS a, DITRS b => DetectorIdToRoadSections.__eq__ a b
  | DITRS a, _ =>
      DetectorIdToRoadSections.__eq__ a (DetectorIdToRoadSections.Build None)
  | OFDS a, OFDS b => OutputFlowDataSet.__eq__ a b
  | OFDS a, _ => OutputFlowDataSet.__eq__ a (OutputFlowDataSet.Build None None)
  end.

(** A constructor call: the class, and [year] for [DetectorsLocation]. *)
Inductive constructor_call : Type :=
| New_DetectorsLocation (year : pyobj)
| New_GroundFlowData
| New_DetectorIdToRoadSections
| New_OutputFlowDataSet.

Definition construct (call : constructor_call) (filepath : string) (w : world)
  : result collection :=
  match call with
  | New_DetectorsLocation year => DL <$> DetectorsLocation.__init__ year filepath w
  | New_GroundFlowData => GFD <$> GroundFlowData.__init__ filepath w
  | New_DetectorIdToRoadSections => DITRS <$> DetectorIdToRoadSections.__init__ filepath w
  | New_OutputFlowDataSet => OFDS <$> OutputFlowDataSet.__init__ filepath w
  end.

(** The record class of the items of a list-based collection. *)
Definition item_class (call : constructor_call) : option pyclass :=
  match call with
  | New_DetectorsLocation _ => None
  | New_GroundFlowData => Some DetectorFlowData_class
  | New_DetectorIdToRoadSections => Some DetectorIdToRoadSection_class
  | New_OutputFlowDataSet => Some OutputFlowData_class
  end.

(** ** Datasets that conform to the declared attribute types *)

(** [Dict[datetime.datetime, float]] and [Dict[datetime.time, float]] *)
Definition flow_data_obj (fd : list (timestamp * spec_float)) : pyobj :=
  PDict ((λ kv, (PTimestamp kv.1, PFloat kv.2)) <$> fd).

Module DetectorFlowData.
Record t : Type := Build {
  detector_id : Z;
  direction : Direction;
  flow_data : list (timestamp * spec_float);
  name : string;
  year : Z }.

Definition obj (d : t) : pyobj :=
  PInstance DetectorFlowData_class
    [("detector_id", PInt (detector_id d));
     ("direction", PEnum (direction d));
     ("name", PStr (name d));
     ("flow_data", flow_data_obj (flow_data d));
     ("year", PInt (year d))].
End DetectorFlowData.

Module DetectorIdToRoadSection.
Record t : Type := Build { detector_id : Z; section_id : Z }.

Definition obj (d : t) : pyobj :=
  PInstance DetectorIdToRoadSection_class
    [("detector_id", PInt (detector_id d));
     ("section_id", PInt (section_id d))].
End DetectorIdToRoadSection.

Module OutputFlowData.
Record t : Type := Build {
  detector_id : Z;
  flow_data : list (timestamp * spec_float);
  section_id : Z }.

Definition obj (d : t) : pyobj :=
  PInstance OutputFlowData_class
    [("detector_id", PInt (detector_id d));
     ("section_id", PInt (section_id d));
     ("flow_data", flow_data_obj (flow_data d))].
End OutputFlowData.

(** An item of [Dict[DetectorId, Tuple[Direction, Point]]] *)
Definition location : Type := Z * (Direction * (spec_float * spec_float)).

Definition location_item (e : location) : pyobj * pyobj :=
  (PInt e.1, PTuple [PEnum e.2.1; PPoint e.2.2.1 e.2.2.2]).

(** The contents of a collection whose attributes have the declared
    types.  [OutputFlowDataSet.year] is left as it is: nothing reads it. *)
Inductive dataset : Type :=
| Locations (entries : list location) (year : Z)
| GroundFlow (detectors : list DetectorFlowData.t)
| RoadSections (pairs : list DetectorIdToRoadSection.t)
| OutputFlow (outputs : list OutputFlowData.t) (year : option pyobj).

Definition instance_of (d : dataset) : collection :=
  match d with
  | Locations entries year =>
      DL (DetectorsLocation.Build (Some (PDict (location_item <$> entries))) (PInt year))
  | GroundFlow detectors =>
      GFD (GroundFlowData.Build (Some (PList (DetectorFlowData.obj <$> detectors))))
  | RoadSections pairs =>
      DITRS (DetectorIdToRoadSections.Build
               (Some (PList (DetectorIdToRoadSection.obj <$> pairs))))
  | OutputFlow outputs year =>
      OFDS (OutputFlowDataSet.Build (Some (PList (OutputFlowData.obj <$> outputs))) year)
  end.

(** The constructor of the class of [d]; [year] is the argument given to
    [DetectorsLocation]. *)
Definition constructor_of (d : dataset) (year : pyobj) : constructor_call :=
  match d with
  | Locations _ _ => New_DetectorsLocation year
  | GroundFlow _ => New_GroundFlowData
  | RoadSections _ => New_DetectorIdToRoadSections
  | OutputFlow _ _ => New_OutputFlowDataSet
  end.

Definition populated (d : dataset) : Prop :=
  match d with
  | Locations entries _ => entries ≠ []
  | GroundFlow detectors => detectors ≠ []
  | RoadSections pairs => pairs ≠ []
  | OutputFlow outputs _ => outputs ≠ []
  end.

Definition is_nan (f : spec_float) : bool :=
  match f with S754_nan => true | _ => false end.

(** A flow-data mapping has one item per key, as every dict has. *)
Definition flow_data_regular (fd : list (timestamp * spec_float)) : Prop :=
  NoDup fd.*1 ∧ Forall (λ kv, is_nan kv.2 = false) fd.

(** A regular dataset: no coordinate and no volume is NaN, and the
    mappings have one item per key. *)
Definition regular (d : dataset) : Prop :=
  match d with
  | Locations entries _ =>
      NoDup entries.*1 ∧
      Forall (λ e : location, is_nan e.2.2.1 = false ∧ is_nan e.2.2.2 = false) entries
  | GroundFlow detectors =>
      Forall (λ r, flow_data_regular (DetectorFlowData.flow_data r)) detectors
  | RoadSections _ => True
  | OutputFlow outputs _ =>
      Forall (λ r, flow_data_regular (OutputFlowData.flow_data r)) outputs
  end.

(** Export to [filepath], construct a new instance from [filepath], and
    compare it with the exported one. *)
Definition round_trip (x : collection) (call : constructor_call)
    (filepath : string) (w : world) : Prop :=
  ∃ w' x',
    export_to_file x filepath w = (Ok tt, w') ∧
    construct call filepath w' = Ok x' ∧
    __eq__ x' x = Ok true.

(** ** Vocabulary of the statements *)

(** The three classes whose dataset is a list. *)
Definition list_based (self : collection) : Prop :=
  match self with DL _ => False | _ => True end.

(** [v] is not a list, or it is a list whose first item is not an
    instance of [cls]. *)
Definition wrong_list (cls : pyclass) (v : pyobj) : Prop :=
  isinstance_list v = false ∨
  ∃ first items, v = PList (first :: items) ∧ isinstance first cls = false.

(** The objects that the constructor reads from [f] are there and fail
    its checks: for a list-based class the first object is a
    [wrong_list]; for [DetectorsLocation] the first is not a dict or the
    second is not an int. *)
Definition schema_mismatch (call : constructor_call) (f : file) : Prop :=
  match item_class call with
  | Some cls => ∃ v rest, stream f = v :: rest ∧ wrong_list cls v
  | None =>
      ∃ d year rest, stream f = d :: year :: rest ∧
        (isinstance_dict d = false ∨ isinstance_int year = false)
  end.

(** The indices [ns] as Python ints. *)
Definition indices (ns : list nat) : list pyobj := (λ i, PInt (Z.of_nat i)) <$> ns.

(** ** Sample files and datasets *)

Module Samples.

Definition nothing : world := World ∅ [].

(** A text file, as the tests write it before exporting to ["3.txt"]
    and before importing from ["6.txt"]: on both texts [pickle.load]
    raises [UnpicklingError]. *)
Definition text_file : file := File [] true.
Definition with_text (filepath : string) : world :=
  World {[filepath := text_file]} [].

(** A file that holds the text ['I am not a pickle'] and a newline:
    [pickle.load] reads an integer literal in it and raises
    [ValueError]. *)
Definition not_a_pickle : file := Stored [] (Some (OtherError "ValueError")).

(** [pickle.dump(["This is a wrong dataset"], file)] *)
Definition wrong_dataset : pyobj := PList [PStr "This is a wrong dataset"].
Definition with_wrong_dataset : world :=
  World {["5.txt" := File [wrong_dataset] false]} [].

(** [pickle.dump([], file)] *)
Definition with_empty_list : world :=
  World {["8.txt" := File [PList []] false]} [].

Definition one_half : spec_float := S754_finite false 1 (-1).
Definition three : spec_float := S754_finite false 3 0.

Definition two_locations : dataset :=
  Locations [(17, (north_bound, (one_half, three)));
             (42, (west_bound, (three, S754_zero false)))] 2021.

Definition first_location : dataset :=
  Locations [(17, (north_bound, (one_half, three)))] 2021.

Definition detector (volume : spec_float) : DetectorFlowData.t :=
  DetectorFlowData.Build 17 south_bound
    [(Datetime 1000000, three); (Datetime 2000000, volume)] "AbCdEfGhIj" 2021.

Definition ground_flow : dataset := GroundFlow [detector one_half; detector three].
Definition ground_flow_nan : dataset := GroundFlow [detector S754_nan].

Definition road_sections : dataset :=
  RoadSections [DetectorIdToRoadSection.Build 17 5; DetectorIdToRoadSection.Build 42 6].

Definition output_flow : dataset :=
  OutputFlow [OutputFlowData.Build 17 [(Time 0, one_half)] 5] (Some (PInt 2021)).

(** A [DetectorsLocation] whose mapping is empty. *)
Definition no_locations : collection := instance_of (Locations [] 2021).

End Samples.

(** ** Comparisons of typed data *)

(** What [DetectorsLocation.__eq__] compares of two values of the
    mapping: the directions and the two coordinates. *)
Definition location_eqb (a b : Direction * (spec_float * spec_float)) : bool :=
  bool_decide (a.1 = b.1) && SFeqb a.2.1 b.2.1 && SFeqb a.2.2 b.2.2.

(** Every item of [ea] has its key in [eb], with an equal value there. *)
Definition included (ea eb : list location) : bool :=
  forallb (λ e : location,
             match (list_to_map eb : gmap Z (Direction * (spec_float * spec_float))) !! e.1 with
             | Some val => location_eqb e.2 val
             | None => false
             end) ea.

Global Instance timestamp_countable : Countable timestamp :=
  inj_countable'
    (λ t, match t with Datetime us => inl us | Time us => inr us end)
    (λ s, match s with inl us => Datetime us | inr us => Time us end)
    (λ t, match t with Datetime _ | Time _ => eq_refl end).

(** What [!=] on two flow-data mappings negates: the sizes are equal and
    every key of the left one has an equal volume in the right one. *)
Definition flow_data_eqb (fd fd' : list (timestamp * spec_float)) : bool :=
  (length fd =? length fd')%nat &&
  forallb (λ kv : timestamp * spec_float,
             match (list_to_map fd' : gmap timestamp spec_float) !! kv.1 with
             | Some v' => SFeqb kv.2 v'
             | None => false
             end) fd.

(** The attributes that the three list-based [__eq__] compare. *)
Definition DetectorFlowData_eqb (a b : DetectorFlowData.t) : bool :=
  (DetectorFlowData.detector_id a =? DetectorFlowData.detector_id b) &&
  bool_decide (DetectorFlowData.direction a = DetectorFlowData.direction b) &&
  flow_data_eqb (DetectorFlowData.flow_data a) (DetectorFlowData.flow_data b) &&
  String.eqb (DetectorFlowData.name a) (DetectorFlowData.name b) &&
  (DetectorFlowData.year a =? DetectorFlowData.year b).

Definition DetectorIdToRoadSection_eqb (a b : DetectorIdToRoadSection.t) : bool :=
  (DetectorIdToRoadSection.detector_id a =? DetectorIdToRoadSection.detector_id b) &&
  (DetectorIdToRoadSection.section_id a =? DetectorIdToRoadSection.section_id b).

Definition OutputFlowData_eqb (a b : OutputFlowData.t) : bool :=
  (OutputFlowData.detector_id a =? OutputFlowData.detector_id b) &&
  flow_data_eqb (OutputFlowData.flow_data a) (OutputFlowData.flow_data b) &&
  (OutputFlowData.section_id a =? OutputFlowData.section_id b).

(** ** The dataset generators of the test modules *)

(** [createDLDataset] (flow_processing_input_test.py) and
    [create_DITRS_Dataset] (flow_processed_output_test.py).  The other
    two generators, [createGFDDataset] and [create_OFDS_Dataset], are
    left out: their timestamps and volumes come out of float arithmetic
    on dates and of [round]. *)

(** The source of the random numbers: the integers and the floats that
    the calls of [random] will draw, and how many of each were drawn. *)
Record rng : Type := Rng {
  integers : nat → Z;
  reals : nat → spec_float;
  integers_drawn : nat;
  reals_drawn : nat }.

(** The generators fail with [AssertionError], from their own [assert]
    statements, or with [ValueError], from [Direction(value)]. *)
Inductive test_exn : Set := AssertionError | ValueError.

Definition Gen (A : Type) : Type := rng → (test_exn + A) * rng.

Global Instance Gen_ret : MRet Gen := λ A a r, (inr a, r).
Global Instance Gen_bind : MBind Gen :=
  λ A B f m r,
    match m r with
    | (inr a, r') => f a r'
    | (inl e, r') => (inl e, r')
    end.

(** [random.randint(a, b)]: an integer between [a] and [b], both
    included, that the next integer of the source determines. *)
Definition randint (a b : Z) : Gen Z :=
  λ r, (inr (a + integers r (integers_drawn r) `mod` (b - a + 1)),
        Rng (integers r) (reals r) (S (integers_drawn r)) (reals_drawn r)).

(** [random.uniform(a, b)]: the next float of the source. *)
Definition uniform : Gen spec_float :=
  λ r, (inr (reals r (reals_drawn r)),
        Rng (integers r) (reals r) (integers_drawn r) (S (reals_drawn r))).

(** [assert b] *)
Definition py_assert (b : bool) : Gen unit :=
  λ r, (if b then inr tt else inl AssertionError, r).

(** [Direction(value)]: the member with that value. *)
Definition Direction_of_value (value : Z) : Gen Direction :=
  λ r, (if value =? 1 then inr north_bound
        else if value =? 2 then inr east_bound
        else if value =? 3 then inr south_bound
        else if value =? 4 then inr west_bound
        else inl ValueError, r).

(** [d[k] = v] on the items of a dict: the value of the key is replaced
    where the key is, or the item is added at the end. *)
Fixpoint dict_setitem (kvs : list (pyobj * pyobj)) (k v : pyobj) : list (pyobj * pyobj) :=
  match kvs with
  | [] => [(k, v)]
  | (k', v') :: kvs' =>
      if py_eq k k' then (k', v) :: kvs' else (k', v') :: dict_setitem kvs' k v
  end.

(** The isinstance checks of the generators. *)
Definition isinstance_Direction (v : pyobj) : bool :=
  match v with PEnum _ => true | _ => false end.
Definition isinstance_Point (v : pyobj) : bool :=
  match v with PPoint _ _ => true | _ => false end.

Module createDLDataset.

(** [dataset] holds the items of the dict. *)
Record t : Type := Build { dataset : list (pyobj * pyobj); num_locations : Z }.

Definition generate_id : Gen pyobj :=
  n ← randint 0 9999;
  let random_Id := PInt n in
  py_assert (isinstance_int random_Id);;
  mret random_Id.

Definition generate_direction : Gen pyobj :=
  random_enum ← randint 1 4;
  d ← Direction_of_value random_enum;
  let random_direction := PEnum d in
  py_assert (isinstance_Direction random_direction);;
  mret random_direction.

Definition generate_point : Gen pyobj :=
  x ← uniform;
  y ← uniform;
  let random_point := PPoint x y in
  py_assert (isinstance_Point random_point);;
  mret random_point.

(** The body of [for _ in range(0, self.num_locations)], [count] times. *)
Fixpoint add_loop (count : nat) (dataset : list (pyobj * pyobj))
  : Gen (list (pyobj * pyobj)) :=
  match count with
  | O => mret dataset
  | S count =>
      detector_id ← generate_id;
      detector_direction ← generate_direction;
      detector_point ← generate_point;
      add_loop count
        (dict_setitem dataset detector_id (PTuple [detector_direction; detector_point]))
  end.

Definition add_locations (self : t) : Gen t :=
  dataset ← add_loop (Z.to_nat (num_locations self)) (dataset self);
  py_assert (Z.of_nat (length dataset) =? num_locations self);;
  mret (Build dataset (num_locations self)).

(** [createDLDataset(num_locations)] *)
Definition __init__ (num_locations : Z) : Gen t :=
  add_locations (Build [] num_locations).

End createDLDataset.

Module create_DITRS_Dataset.

Record t : Type := Build { dataset : list pyobj; datasize : Z }.

Fixpoint generate_loop (count : nat) (dataset : list pyobj) : Gen (list pyobj) :=
  match count with
  | O => mret dataset
  | S count =>
      n ← randint 0 9999;
      let random_detector_id := PInt n in
      py_assert (isinstance_int random_detector_id);;
      m ← randint 0 9999;
      let random_section_id := PInt m in
      py_assert (isinstance_int random_section_id);;
      let detector_section_ids :=
        PInstance DetectorIdToRoadSection_class
          [("detector_id", random_detector_id); ("section_id", random_section_id)] in
      generate_loop count (dataset ++ [detector_section_ids])
  end.

Definition generate_dataset (self : t) : Gen t :=
  dataset ← generate_loop (Z.to_nat (datasize self)) (dataset self);
  py_assert (Z.of_nat (length dataset) =? datasize self);;
  mret (Build dataset (datasize self)).

(** [create_DITRS_Dataset(datasize)] *)
Definition __init__ (datasize : Z) : Gen t :=
  generate_dataset (Build [] datasize).

End create_DITRS_Dataset.

(** The locations that [createDLDataset] draws in its first [n] rounds:
    each round draws two integers (id, direction) and two floats. *)
Definition drawn_direction (z : Z) : Direction :=
  match z `mod` 4 with
  | 0 => north_bound
  | 1 => east_bound
  | 2 => south_bound
  | _ => west_bound
  end.

Definition drawn_location (r : rng) (i : nat) : location :=
  (integers r (integers_drawn r + 2 * i) `mod` 10000,
   (drawn_direction (integers r (integers_drawn r + 2 * i + 1)),
    (reals r (reals_drawn r + 2 * i), reals r (reals_drawn r + 2 * i + 1)))).

Definition drawn_locations (r : rng) (n : nat) : list location :=
  drawn_location r <$> seq 0 n.

(** The pairs that [create_DITRS_Dataset] draws in its first [n] rounds. *)
Definition drawn_pair (r : rng) (i : nat) : DetectorIdToRoadSection.t :=
  DetectorIdToRoadSection.Build
    (integers r (integers_drawn r + 2 * i) `mod` 10000)
    (integers r (integers_drawn r + 2 * i + 1) `mod` 10000).

Definition drawn_pairs (r : rng) (n : nat) : list DetectorIdToRoadSection.t :=
  drawn_pair r <$> seq 0 n.

(** The source after [n] rounds of either generator. *)
Definition after_rounds (r : rng) (n : nat) (reals_per_round : nat) : rng :=
  Rng (integers r) (reals r) (integers_drawn r + 2 * n)
      (reals_drawn r + reals_per_round * n).

(** [dataset[detector_id] = (detector_direction, detector_point)] *)
Definition set_location (d : list (pyobj * pyobj)) (e : location) : list (pyobj * pyobj) :=
  dict_setitem d (location_item e).1 (location_item e).2.

(** Sources of random numbers for the examples: the integers count up
    from 0, or are all 7; the floats are all 0.5. *)
Definition counting : rng := Rng Z.of_nat (λ _, S754_finite false 1 (-1)) 0 0.
Definition stuck : rng := Rng (λ _, 7) (λ _, S754_finite false 1 (-1)) 0 0.

(** * Properties *)

(** ** Files *)

Lemma file_at_Some w filepath f :
  file_at w filepath = Some f →
  String.eqb filepath "" = false ∧ fs w !! filepath = Some f.
Proof. unfold file_at. destruct (String.eqb filepath ""); [discriminate | auto]. Qed.

Lemma can_open_for_writing_nonempty w filepath :
  can_open_for_writing w filepath → filepath ≠ "".
Proof. unfold can_open_for_writing, open_wb. by intros H ->. Qed.

Lemma file_at_insert filepath f (files : gmap string file) ws :
  filepath ≠ "" → file_at (World (<[filepath := f]> files) ws) filepath = Some f.
Proof.
  intros Hpath. apply String.eqb_neq in Hpath. unfold file_at. rewrite Hpath. simpl.
  apply lookup_insert_eq.
Qed.

(** ** Export *)

Ltac unfold_export :=
  cbv [DetectorsLocation.export_to_file GroundFlowData.export_to_file
       DetectorIdToRoadSections.export_to_file OutputFlowDataSet.export_to_file
       mbind M_bind mret M_ret lift path_exists warnings_warn open_wb pickle_dump
       modify raise].

(** Exporting a populated collection to a path that can be opened writes
    the persisted fields there, and warns once if a file was there. *)
Lemma export_populated self filepath w v n :
  primary_field self = Some v → py_len v = Ok (S n) → filepath ≠ "" →
  ∃ vals, persisted_fields self = Some vals ∧
    export_to_file self filepath w =
      (Ok tt, World (<[filepath := File vals false]> (fs w))
                    (warnings w ++ match file_at w filepath with
                                   | Some _ => [already_exists]
                                   | None => []
                                   end)).
Proof.
  intros Hv Hlen Hpath. apply String.eqb_neq in Hpath.
  unfold persisted_fields. rewrite Hv. simpl.
  destruct self as [x|x|x|x]; simpl in Hv |- *; eexists; (split; [reflexivity|]).
  all: unfold_export; rewrite Hv; simpl; rewrite Hlen; simpl; rewrite Hpath.
  all: destruct (file_at w filepath); simpl.
  all: rewrite ?alter_insert_eq, ?app_nil_r; try reflexivity.
  all: destruct w; reflexivity.
Qed.

(** C3. For every instance of each of the four collection classes whose
    primary field is empty (its [len] is 0), [export_to_file] raises the
    "has no data" exception of its class, and the file system and the
    warning log are as they were: nothing was created, modified or
    warned about. *)
Theorem export_empty_raises self filepath w v :
  primary_field self = Some v → py_len v = Ok 0%nat →
  export_to_file self filepath w = (Raise (Exception (no_data self)), w).
Proof.
  intros Hv Hlen.
  destruct self as [x|x|x|x]; simpl in Hv |- *.
  all: cbv [DetectorsLocation.export_to_file GroundFlowData.export_to_file
            DetectorIdToRoadSections.export_to_file OutputFlowDataSet.export_to_file
            mbind M_bind lift].
  all: rewrite Hv; simpl; rewrite Hlen; reflexivity.
Qed.

Lemma export_empty_raises_witness :
  primary_field Samples.no_locations = Some (PDict []) ∧
  py_len (PDict []) = Ok 0%nat ∧
  export_to_file Samples.no_locations "4.txt" (Samples.with_text "4.txt")
  = (Raise (Exception "DetectorsLocation has no data. Export aborted."),
     Samples.with_text "4.txt").
Proof.
  split; [reflexivity|]. split; [reflexivity|].
  apply (export_empty_raises Samples.no_locations "4.txt" _ (PDict [])); reflexivity.
Defined.



(** ** Import *)

Ltac unfold_import :=
  cbv [_import_from_file prod_map id
       DetectorsLocation._import_from_file GroundFlowData._import_from_file
       DetectorIdToRoadSections._import_from_file OutputFlowDataSet._import_from_file
       mbind M_bind mret M_ret lift modify raise open_rb pickle_load].

Ltac unfold_construct :=
  cbv [construct fmap result_fmap str_truthy
       DetectorsLocation.__init__ GroundFlowData.__init__
       DetectorIdToRoadSections.__init__ OutputFlowDataSet.__init__];
  unfold_import.

(** C5. For every instance and every file system, [_import_from_file]
    either returns, and then the persisted fields of the instance are the
    objects at the head of the file, in the order of the file, and the
    other fields are as before; or it raises, and then the instance is
    as it was before. *)
Theorem import_atomic self w filepath :
  match _import_from_file w filepath self with
  | (Ok _, self') =>
      ∃ f vals rest,
        file_at w filepath = Some f ∧ stream f = (vals ++ rest)%list ∧
        persisted_fields self' = Some vals ∧ other_fields self' = other_fields self
  | (Raise _, self') => self' = self
  end.
Proof.
  destruct self as [x|x|x|x]; unfold_import.
  all: destruct (file_at w filepath) as [[objs bad]|]; simpl; [|reflexivity].
  all: destruct objs as [|v objs]; simpl; [destruct bad; reflexivity|].
  1: { destruct objs as [|y objs]; simpl; [destruct bad; reflexivity|].
       destruct (isinstance_dict v && isinstance_int y); simpl; [|reflexivity].
       eexists _, [v; y], objs. auto. }
  all: match goal with
       | |- context [if isinstance_list ?v then ?a else ?b] =>
           destruct (if isinstance_list v then a else b) as [[|]|e]
       end; simpl; try reflexivity.
  all: eexists _, [v], objs; auto.
Qed.

(** C9. For each of the three list-based classes, when the first object
    of the file is the empty list, the constructor raises [IndexError],
    not the "incorrect data type" exception, and so does
    [_import_from_file], which leaves the instance as it was. *)
Theorem import_empty_list_index_error call self filepath w f rest :
  is_Some (item_class call) → list_based self →
  file_at w filepath = Some f → stream f = PList [] :: rest →
  construct call filepath w = Raise IndexError ∧
  _import_from_file w filepath self = (Raise IndexError, self).
Proof.
  intros Hcall Hself Hf Hstream. destruct (file_at_Some _ _ _ Hf) as [Hne _].
  destruct f as [objs bad]; simpl in Hstream; subst objs. split.
  - destruct call; try (by destruct Hcall); unfold_construct.
    all: rewrite Hne, Hf; reflexivity.
  - destruct self; try contradiction; unfold_import.
    all: rewrite Hf; reflexivity.
Qed.

Lemma import_empty_list_index_error_witness :
  let self := instance_of Samples.ground_flow in
  is_Some (item_class New_GroundFlowData) ∧ list_based self ∧
  file_at Samples.with_empty_list "8.txt" = Some (File [PList []] false) ∧
  construct New_GroundFlowData "8.txt" Samples.with_empty_list = Raise IndexError ∧
  _import_from_file Samples.with_empty_list "8.txt" self = (Raise IndexError, self).
Proof.
  intros self.
  assert (Hcall : is_Some (item_class New_GroundFlowData)) by (eexists; reflexivity).
  split; [exact Hcall|]. split; [exact I|]. split; [reflexivity|].
  apply (import_empty_list_index_error New_GroundFlowData self "8.txt"
           Samples.with_empty_list (File [PList []] false) []);
    [exact Hcall | exact I | reflexivity | reflexivity].
Defined.

(** C10. When the file at [filepath] holds a dict and then an int,
    [DetectorsLocation(year, filepath)] returns an instance whose [year]
    is the int of the file, whatever the argument [year] is. *)
Theorem init_year_from_file (year : pyobj) filepath w f d year' rest :
  file_at w filepath = Some f → stream f = d :: year' :: rest →
  isinstance_dict d = true → isinstance_int year' = true →
  DetectorsLocation.__init__ year filepath w =
    Ok (DetectorsLocation.Build (Some d) year').
Proof.
  intros Hf Hstream Hd Hy. destruct (file_at_Some _ _ _ Hf) as [Hne _].
  destruct f as [objs bad]; simpl in Hstream; subst objs.
  unfold_construct. rewrite Hne, Hf; simpl. rewrite Hd, Hy. reflexivity.
Qed.

Lemma init_year_from_file_witness :
  let d := PDict [(PInt 17, PTuple [PEnum north_bound; PPoint S754_nan S754_nan])] in
  let w := World {["7.txt" := File [d; PInt 2021] false]} [] in
  file_at w "7.txt" = Some (File [d; PInt 2021] false) ∧
  isinstance_dict d = true ∧ isinstance_int (PInt 2021) = true ∧
  DetectorsLocation.__init__ (PInt 1999) "7.txt" w =
    Ok (DetectorsLocation.Build (Some d) (PInt 2021)).
Proof.
  intros d w. split; [reflexivity|]. split; [reflexivity|]. split; [reflexivity|].
  apply (init_year_from_file (PInt 1999) "7.txt" w (File [d; PInt 2021] false)
           d (PInt 2021) []); reflexivity.
Defined.

(** C4, as the code has it.  When the objects that the constructor reads
    are in the file and fail its checks (for a list-based class: the
    first object is not a list, or is a list whose first item is not of
    the record class; for [DetectorsLocation]: the file holds two
    objects, and the first is not a dict or the second is not an int),
    the constructor raises the "incorrect data type" exception. *)
Theorem import_type_mismatch call filepath w f :
  file_at w filepath = Some f → schema_mismatch call f →
  construct call filepath w = Raise (Exception incorrect_data_type).
Proof.
  intros Hf Hbad. destruct (file_at_Some _ _ _ Hf) as [Hne _].
  destruct f as [objs bad]. unfold schema_mismatch in Hbad.
  destruct call; simpl in Hbad.
  1: { destruct Hbad as (d & y & rest & -> & Hbad). unfold_construct.
       rewrite Hne, Hf; simpl.
       destruct Hbad as [-> | ->]; rewrite ?andb_false_r; reflexivity. }
  all: destruct Hbad as (v & rest & -> & [Hv | (first & items & -> & Hfirst)]).
  all: unfold_construct; rewrite Hne, Hf; simpl; rewrite ?Hv, ?Hfirst; reflexivity.
Qed.

Lemma import_type_mismatch_witness :
  let f := File [Samples.wrong_dataset] false in
  file_at Samples.with_wrong_dataset "5.txt" = Some f ∧
  schema_mismatch New_GroundFlowData f ∧
  construct New_GroundFlowData "5.txt" Samples.with_wrong_dataset
  = Raise (Exception "File has incorrect data type. Import aborted.").
Proof.
  intros f.
  assert (Hbad : schema_mismatch New_GroundFlowData f).
  { exists Samples.wrong_dataset, []. split; [reflexivity|].
    right. eexists _, _. split; reflexivity. }
  split; [reflexivity|]. split; [exact Hbad|].
  apply (import_type_mismatch New_GroundFlowData "5.txt" Samples.with_wrong_dataset f);
    [reflexivity | exact Hbad].
Defined.

(** C4 fails as stated: the file that the test of [DetectorsLocation]
    writes holds one object, a list where a dict is expected, and the
    constructor raises [EOFError] on its second [pickle.load], not the
    "incorrect data type" exception. *)
Lemma import_short_stream_eof :
  file_at Samples.with_wrong_dataset "5.txt" = Some (File [Samples.wrong_dataset] false) ∧
  isinstance_dict Samples.wrong_dataset = false ∧
  construct (New_DetectorsLocation (PInt 9999)) "5.txt" Samples.with_wrong_dataset
  = Raise EOFError ∧
  construct (New_DetectorsLocation (PInt 9999)) "5.txt" Samples.with_wrong_dataset
  ≠ Raise (Exception incorrect_data_type).
Proof.
  assert (H : construct (New_DetectorsLocation (PInt 9999)) "5.txt"
                Samples.with_wrong_dataset = Raise EOFError) by reflexivity.
  repeat split; try reflexivity; try exact H. rewrite H. discriminate.
Qed.

(** C6, as the code has it.  When the file is not a pickle stream at
    all, so that [pickle.load] raises an exception [e] on it instead of
    returning a first object, the constructor of each of the four
    classes raises this very [e], whichever it is: no import catches or
    converts the errors of [pickle.load]. *)
Theorem import_not_a_pickle call filepath w f e :
  file_at w filepath = Some f → pickle_load f = Raise e →
  construct call filepath w = Raise e.
Proof.
  intros Hf He. destruct (file_at_Some _ _ _ Hf) as [Hne _].
  destruct call; unfold_construct; rewrite Hne, Hf; cbn [fst snd].
  all: fold (pickle_load f); rewrite He; reflexivity.
Qed.

Lemma import_not_a_pickle_witness :
  let w := World {["6.txt" := Samples.not_a_pickle]} [] in
  file_at w "6.txt" = Some Samples.not_a_pickle ∧
  pickle_load Samples.not_a_pickle = Raise (OtherError "ValueError") ∧
  construct New_OutputFlowDataSet "6.txt" w = Raise (OtherError "ValueError").
Proof.
  intros w.
  split; [reflexivity|]. split; [reflexivity|].
  apply (import_not_a_pickle New_OutputFlowDataSet "6.txt" w Samples.not_a_pickle
           (OtherError "ValueError")); reflexivity.
Defined.

(** C6 fails as stated: importing a text file through the constructor of
    [GroundFlowData] does not raise the "incorrect data type" exception. *)
Lemma import_text_not_type_mismatch :
  file_at (Samples.with_text "6.txt") "6.txt" = Some Samples.text_file ∧
  construct New_GroundFlowData "6.txt" (Samples.with_text "6.txt")
  ≠ Raise (Exception incorrect_data_type).
Proof. split; [reflexivity|]. discriminate. Qed.

(** ** Equality *)

Lemma OutputFlowDataSet_eq_loop_year (a b : OutputFlowDataSet.t) ya yb ixs :
  OutputFlowDataSet.eq_loop
    (OutputFlowDataSet.Build (OutputFlowDataSet.flow_data_set a) ya)
    (OutputFlowDataSet.Build (OutputFlowDataSet.flow_data_set b) yb) ixs
  = OutputFlowDataSet.eq_loop a b ixs.
Proof.
  induction ixs as [|i ixs IH]; [reflexivity|].
  simpl. rewrite IH. reflexivity.
Qed.

(** C8. For every pair of [OutputFlowDataSet] instances, replacing the
    [year] of either or both (by any object, or by no value at all)
    leaves the result of [__eq__] as it is: the result depends on the two
    [flow_data_set] fields only. *)
Theorem year_not_compared (a b : OutputFlowDataSet.t) (ya yb : option pyobj) :
  OutputFlowDataSet.__eq__
    (OutputFlowDataSet.Build (OutputFlowDataSet.flow_data_set a) ya)
    (OutputFlowDataSet.Build (OutputFlowDataSet.flow_data_set b) yb)
  = OutputFlowDataSet.__eq__ a b.
Proof.
  unfold OutputFlowDataSet.__eq__. simpl.
  destruct (attribute (OutputFlowDataSet.flow_data_set a)) as [la|]; simpl; [|reflexivity].
  destruct (py_len la) as [n|]; simpl; [|reflexivity].
  destruct (attribute (OutputFlowDataSet.flow_data_set b)) as [lb|]; simpl; [|reflexivity].
  destruct (py_len lb) as [n'|]; simpl; [|reflexivity].
  destruct (negb (n =? n')%nat); [reflexivity|].
  apply OutputFlowDataSet_eq_loop_year.
Qed.

(** The three list-based classes compare the sizes first. *)
Lemma list_based_size_mismatch (self other : collection) (v v' : pyobj) (n n' : nat) :
  list_based self →
  primary_field self = Some v → py_len v = Ok n →
  primary_field other = Some v' → py_len v' = Ok n' →
  n ≠ n' →
  match self, other with
  | GFD _, GFD _ | DITRS _, DITRS _ | OFDS _, OFDS _ => __eq__ self other = Ok false
  | _, _ => True
  end.
Proof.
  intros Hl Hv Hn Hv' Hn' Hne.
  destruct self as [a|a|a|a], other as [b|b|b|b]; try exact I; simpl in *.
  all: cbv [GroundFlowData.__eq__ DetectorIdToRoadSections.__eq__
            OutputFlowDataSet.__eq__ mbind result_bind].
  all: rewrite Hv, Hv'; simpl; rewrite Hn, Hn'.
  all: destruct (Nat.eqb_spec n n'); [contradiction | reflexivity].
Qed.

(** C2 at a failing input.  The left instance has one location and the
    right one has two, the first of which is the left one, and both have
    the same year: [DetectorsLocation.__eq__] finds them equal, because it
    compares the year and looks the keys of the left mapping up in the
    right one, and never compares the sizes.  The other way round it
    finds them unequal. *)
Theorem DetectorsLocation_eq_ignores_size :
  let small := instance_of Samples.first_location in
  let big := instance_of Samples.two_locations in
  (primary_field small ≫= λ v, Some (py_len v)) = Some (Ok 1%nat) ∧
  (primary_field big ≫= λ v, Some (py_len v)) = Some (Ok 2%nat) ∧
  __eq__ small big = Ok true ∧
  __eq__ big small = Ok false.
Proof. repeat split; vm_compute; reflexivity. Qed.

(** *** A regular dataset equals its copy *)

Lemma SFeqb_refl f : is_nan f = false → SFeqb f f = true.
Proof.
  unfold SFeqb. destruct f as [s|s| |s m e]; simpl; try done.
  - by destruct s.
  - intros _. destruct s; rewrite Z.compare_refl, Pos.compare_cont_refl; done.
Qed.

Lemma getitem_index xs (i : nat) x :
  xs !! i = Some x → py_getitem (PList xs) (PInt (Z.of_nat i)) = Ok x.
Proof.
  intros Hx. unfold py_getitem, seq_index.
  assert (Hge : (Z.of_nat i <? 0) = false) by (apply Z.ltb_ge; lia).
  by rewrite !Hge, Nat2Z.id, Hx.
Qed.

Section assoc.
Context {A T : Type} `{EqDecision T}.
Variables (inj : T → pyobj) (key : A → T) (val : A → pyobj).
Hypothesis py_eq_inj : ∀ a b, py_eq (inj a) (inj b) = bool_decide (a = b).

Lemma assoc_find_unique (xs : list A) (x : A) :
  NoDup (key <$> xs) → x ∈ xs →
  assoc_find (py_eq (inj (key x))) ((λ a, (inj (key a), val a)) <$> xs)
  = Some (val x).
Proof.
  induction xs as [|a xs IH]; intros Hnd Hin; [by apply elem_of_nil in Hin|].
  rewrite fmap_cons in Hnd. apply NoDup_cons in Hnd as [Ha Hnd].
  simpl. rewrite py_eq_inj.
  apply elem_of_cons in Hin as [-> | Hin].
  - by rewrite bool_decide_eq_true_2.
  - rewrite bool_decide_eq_false_2; [by apply IH|].
    intros Heq. apply Ha. rewrite <- Heq. by apply list_elem_of_fmap_2.
Qed.
End assoc.

Lemma py_eq_dict kvs kvs' :
  py_eq (PDict kvs) (PDict kvs') =
    (length kvs =? length kvs')%nat &&
    forallb (λ kv, match assoc_find (py_eq kv.1) kvs' with
                   | Some v' => py_eq kv.2 v'
                   | None => false
                   end) kvs.
Proof. reflexivity. Qed.

Lemma flow_data_eq_refl fd :
  flow_data_regular fd → py_eq (flow_data_obj fd) (flow_data_obj fd) = true.
Proof.
  intros [Hnd Hnan]. unfold flow_data_obj. rewrite py_eq_dict, Nat.eqb_refl.
  apply forallb_forall. intros kv Hkv.
  apply list_elem_of_In, list_elem_of_fmap in Hkv as ([t v] & -> & Hin).
  pose proof (assoc_find_unique PTimestamp fst (λ kv, PFloat kv.2)
                (λ a b, eq_refl) fd (t, v) Hnd Hin) as Hfind.
  cbn [fst snd] in Hfind |- *. rewrite Hfind.
  apply SFeqb_refl. by apply (proj1 (Forall_forall _ _) Hnan (t, v)).
Qed.

Lemma py_eq_int n : py_eq (PInt n) (PInt n) = true.
Proof. apply Z.eqb_refl. Qed.
Lemma py_eq_str s : py_eq (PStr s) (PStr s) = true.
Proof. apply String.eqb_refl. Qed.
Lemma py_eq_enum d : py_eq (PEnum d) (PEnum d) = true.
Proof. by apply bool_decide_eq_true_2. Qed.
Lemma py_eq_float f : is_nan f = false → py_eq (PFloat f) (PFloat f) = true.
Proof. apply SFeqb_refl. Qed.

Lemma DetectorFlowData_same (d : DetectorFlowData.t) :
  flow_data_regular (DetectorFlowData.flow_data d) →
  let o := DetectorFlowData.obj d in
  attr_ne o o "detector_id" ||| attr_ne o o "direction" ||| attr_ne o o "flow_data"
  ||| attr_ne o o "name" ||| attr_ne o o "year" = Ok false.
Proof.
  intros Hfd. cbn -[py_eq flow_data_obj]. unfold py_ne.
  by rewrite !py_eq_int, py_eq_enum, py_eq_str, flow_data_eq_refl.
Qed.

Lemma DetectorIdToRoadSection_same (d : DetectorIdToRoadSection.t) :
  let o := DetectorIdToRoadSection.obj d in
  attr_ne o o "detector_id" ||| attr_ne o o "section_id" = Ok false.
Proof. cbn -[py_eq]. unfold py_ne. by rewrite !py_eq_int. Qed.

Lemma OutputFlowData_same (d : OutputFlowData.t) :
  flow_data_regular (OutputFlowData.flow_data d) →
  let o := OutputFlowData.obj d in
  attr_ne o o "detector_id" ||| attr_ne o o "flow_data" ||| attr_ne o o "section_id"
  = Ok false.
Proof.
  intros Hfd. cbn -[py_eq flow_data_obj]. unfold py_ne.
  by rewrite !py_eq_int, flow_data_eq_refl.
Qed.

Lemma py_range_indices n : py_range n = indices (seq 0 n).
Proof. reflexivity. Qed.

Lemma GroundFlowData_eq_loop_same (ds : list DetectorFlowData.t) ns equality :
  Forall (λ r, flow_data_regular (DetectorFlowData.flow_data r)) ds →
  Forall (λ i, i < length ds)%nat ns →
  let x := GroundFlowData.Build (Some (PList (DetectorFlowData.obj <$> ds))) in
  GroundFlowData.eq_loop x x (indices ns) equality = Ok equality.
Proof.
  intros Hreg Hns x. induction ns as [|i ns IH]; [reflexivity|].
  apply Forall_cons in Hns as [Hi Hns].
  destruct (lookup_lt_is_Some_2 ds i Hi) as [d Hd].
  assert (Hobj : (DetectorFlowData.obj <$> ds) !! i = Some (DetectorFlowData.obj d))
    by (by rewrite list_lookup_fmap, Hd).
  unfold indices. rewrite fmap_cons. cbn [GroundFlowData.eq_loop].
  cbn [x GroundFlowData.detector_flow_data attribute mbind result_bind].
  rewrite (getitem_index _ _ _ Hobj). cbn [mbind result_bind].
  rewrite DetectorFlowData_same.
  - by apply IH.
  - eapply (proj1 (Forall_forall _ _) Hreg), list_elem_of_lookup_2, Hd.
Qed.

Lemma DetectorIdToRoadSections_eq_loop_same (ds : list DetectorIdToRoadSection.t) ns :
  Forall (λ i, i < length ds)%nat ns →
  let x := DetectorIdToRoadSections.Build
             (Some (PList (DetectorIdToRoadSection.obj <$> ds))) in
  DetectorIdToRoadSections.eq_loop x x (indices ns) = Ok true.
Proof.
  intros Hns x. induction ns as [|i ns IH]; [reflexivity|].
  apply Forall_cons in Hns as [Hi Hns].
  destruct (lookup_lt_is_Some_2 ds i Hi) as [d Hd].
  assert (Hobj : (DetectorIdToRoadSection.obj <$> ds) !! i
                 = Some (DetectorIdToRoadSection.obj d))
    by (by rewrite list_lookup_fmap, Hd).
  unfold indices. rewrite fmap_cons. cbn [DetectorIdToRoadSections.eq_loop].
  cbn [x DetectorIdToRoadSections.aimsun_detector_locations attribute mbind result_bind].
  rewrite (getitem_index _ _ _ Hobj). cbn [mbind result_bind].
  rewrite DetectorIdToRoadSection_same. by apply IH.
Qed.

Lemma OutputFlowDataSet_eq_loop_same (ds : list OutputFlowData.t) ya yb ns :
  Forall (λ r, flow_data_regular (OutputFlowData.flow_data r)) ds →
  Forall (λ i, i < length ds)%nat ns →
  let l := Some (PList (OutputFlowData.obj <$> ds)) in
  OutputFlowDataSet.eq_loop (OutputFlowDataSet.Build l ya) (OutputFlowDataSet.Build l yb)
    (indices ns) = Ok true.
Proof.
  intros Hreg Hns l. induction ns as [|i ns IH]; [reflexivity|].
  apply Forall_cons in Hns as [Hi Hns].
  destruct (lookup_lt_is_Some_2 ds i Hi) as [d Hd].
  assert (Hobj : (OutputFlowData.obj <$> ds) !! i = Some (OutputFlowData.obj d))
    by (by rewrite list_lookup_fmap, Hd).
  unfold indices. rewrite fmap_cons. cbn [OutputFlowDataSet.eq_loop].
  cbn [l OutputFlowDataSet.flow_data_set attribute mbind result_bind].
  rewrite (getitem_index _ _ _ Hobj). cbn [mbind result_bind].
  rewrite OutputFlowData_same.
  - by apply IH.
  - eapply (proj1 (Forall_forall _ _) Hreg), list_elem_of_lookup_2, Hd.
Qed.

Lemma py_eq_int_decide a b : py_eq (PInt a) (PInt b) = bool_decide (a = b).
Proof.
  simpl. destruct (Z.eqb_spec a b).
  - by rewrite bool_decide_eq_true_2.
  - by rewrite bool_decide_eq_false_2.
Qed.

Lemma tuple_item_0 a items : py_getitem (PTuple (a :: items)) (PInt 0) = Ok a.
Proof. reflexivity. Qed.
Lemma tuple_item_1 a b items : py_getitem (PTuple (a :: b :: items)) (PInt 1) = Ok b.
Proof. reflexivity. Qed.

Lemma seq_below n : Forall (λ i, i < n)%nat (seq 0 n).
Proof. apply Forall_forall. intros i Hi. apply elem_of_seq in Hi. lia. Qed.

Lemma DetectorsLocation_eq_loop_same (entries es : list location) year :
  NoDup entries.*1 →
  Forall (λ e : location, is_nan e.2.2.1 = false ∧ is_nan e.2.2.2 = false) entries →
  es ⊆ entries →
  let x := DetectorsLocation.Build (Some (PDict (location_item <$> entries))) year in
  DetectorsLocation.eq_loop x x ((location_item <$> es).*1) = Ok true.
Proof.
  intros Hnd Hnan Hsub x. induction es as [|e es IH]; [reflexivity|].
  assert (He : e ∈ entries) by (apply Hsub; left).
  assert (Hes : es ⊆ entries) by (intros a Ha; apply Hsub; by right).
  assert (Hfind : assoc_find (py_eq (PInt e.1)) (location_item <$> entries)
                  = Some (PTuple [PEnum e.2.1; PPoint e.2.2.1 e.2.2.2]))
    by exact (assoc_find_unique PInt fst
                (λ e : location, PTuple [PEnum e.2.1; PPoint e.2.2.1 e.2.2.2])
                py_eq_int_decide entries e Hnd He).
  destruct (proj1 (Forall_forall _ _) Hnan e He) as [Hx Hy].
  rewrite !fmap_cons. cbn [DetectorsLocation.eq_loop].
  cbn [x DetectorsLocation.detectors_location_dict attribute mbind result_bind
       py_contains py_getitem hashable location_item fst].
  rewrite Hfind. cbn [bool_decide decide_rel is_Some_dec mbind result_bind].
  rewrite !tuple_item_0, !tuple_item_1. cbn [mbind result_bind].
  rewrite py_eq_enum. unfold attr_eq, and_lazy. cbn -[py_eq].
  rewrite !py_eq_float by done. cbn -[py_eq].
  by apply IH.
Qed.

(** A populated, regular dataset equals its copy; the [year] of an
    [OutputFlowDataSet] may differ between the two. *)
Lemma eq_same (d : dataset) (year' : option pyobj) :
  regular d →
  let copy := match d with
              | OutputFlow outputs _ => instance_of (OutputFlow outputs year')
              | _ => instance_of d
              end in
  __eq__ copy (instance_of d) = Ok true.
Proof.
  destruct d as [entries year|ds|ds|ds year]; simpl; intros Hreg.
  - destruct Hreg as [Hnd Hnan].
    unfold DetectorsLocation.__eq__. cbn -[py_eq DetectorsLocation.eq_loop].
    unfold py_ne. rewrite py_eq_int. cbn -[py_eq DetectorsLocation.eq_loop].
    by apply DetectorsLocation_eq_loop_same.
  - unfold GroundFlowData.__eq__. cbn -[GroundFlowData.eq_loop py_range].
    rewrite Nat.eqb_refl. cbn -[GroundFlowData.eq_loop py_range].
    rewrite py_range_indices.
    apply GroundFlowData_eq_loop_same; [done|]. rewrite length_fmap. apply seq_below.
  - unfold DetectorIdToRoadSections.__eq__.
    cbn -[DetectorIdToRoadSections.eq_loop py_range].
    rewrite Nat.eqb_refl. cbn -[DetectorIdToRoadSections.eq_loop py_range].
    rewrite py_range_indices.
    apply DetectorIdToRoadSections_eq_loop_same. rewrite length_fmap. apply seq_below.
  - unfold OutputFlowDataSet.__eq__. cbn -[OutputFlowDataSet.eq_loop py_range].
    rewrite Nat.eqb_refl. cbn -[OutputFlowDataSet.eq_loop py_range].
    rewrite py_range_indices.
    apply OutputFlowDataSet_eq_loop_same; [done|]. rewrite length_fmap. apply seq_below.
Qed.

(** C1, as the code has it.  For every populated, regular dataset of any
    of the four classes (no NaN among its coordinates and volumes) and
    every path but the empty one, exporting the instance to the path
    succeeds, constructing a new instance from the path succeeds, and the
    new instance equals the exported one under [__eq__]. *)
Theorem round_trip_regular (d : dataset) (year : pyobj) (filepath : string) (w : world) :
  populated d → regular d → filepath ≠ "" →
  round_trip (instance_of d) (constructor_of d year) filepath w.
Proof.
  intros Hpop Hreg Hpath. unfold round_trip.
  assert (∃ v n, primary_field (instance_of d) = Some v ∧ py_len v = Ok (S n))
    as (v & n & Hv & Hlen).
  { destruct d as [[|e es] y|[|e es]|[|e es]|[|e es] y]; try done; simpl;
      eexists _, _; split; reflexivity. }
  destruct (export_populated _ filepath w _ _ Hv Hlen Hpath) as (vals & Hvals & Hexport).
  eexists _, (match d with
              | OutputFlow outputs _ => instance_of (OutputFlow outputs None)
              | _ => instance_of d
              end).
  split; [exact Hexport|]. split; [|by apply eq_same].
  pose proof Hpath as Hne. apply String.eqb_neq in Hne.
  destruct d as [[|e es] y|[|e es]|[|e es]|[|e es] y]; try done;
    injection Hvals as <-; unfold_construct;
    rewrite Hne, (file_at_insert _ _ _ _ Hpath); reflexivity.
Qed.

Lemma round_trip_regular_witness :
  populated Samples.ground_flow ∧ regular Samples.ground_flow ∧ "2.txt" ≠ "" ∧
  round_trip (instance_of Samples.ground_flow) New_GroundFlowData "2.txt"
    (Samples.with_text "2.txt").
Proof.
  assert (Hpop : populated Samples.ground_flow) by discriminate.
  assert (Hreg : regular Samples.ground_flow).
  { apply (bool_decide_unpack _). vm_compute. exact I. }
  assert (Hpath : "2.txt" ≠ "") by discriminate.
  split; [exact Hpop|]. split; [exact Hreg|]. split; [exact Hpath|].
  exact (round_trip_regular Samples.ground_flow (PInt 0) "2.txt"
           (Samples.with_text "2.txt") Hpop Hreg Hpath).
Defined.

(** C1 fails as stated, in two ways.  A populated [GroundFlowData] with a
    NaN volume is exported and imported without error, and the new
    instance is unequal to it, because NaN differs from NaN.  And with
    the empty path, [export_to_file] cannot open the file, and the
    constructor does not import at all. *)
Lemma round_trip_fails :
  let x := instance_of Samples.ground_flow_nan in
  let y := instance_of Samples.ground_flow in
  (populated Samples.ground_flow_nan ∧
   (∃ w' x', export_to_file x "2.txt" Samples.nothing = (Ok tt, w') ∧
             construct New_GroundFlowData "2.txt" w' = Ok x' ∧
             __eq__ x' x = Ok false) ∧
   ¬ round_trip x New_GroundFlowData "2.txt" Samples.nothing) ∧
  (populated Samples.ground_flow ∧ regular Samples.ground_flow ∧
   (export_to_file y "" Samples.nothing).1 = Raise FileNotFoundError ∧
   construct New_GroundFlowData "" Samples.nothing = Ok (GFD (GroundFlowData.Build None)) ∧
   ¬ round_trip y New_GroundFlowData "" Samples.nothing).
Proof.
  intros x y. split.
  - split; [discriminate|]. split.
    + eexists _, _. split; [reflexivity|]. split; reflexivity.
    + intros (w' & x' & Hexport & Hnew & Heq).
      vm_compute in Hexport. injection Hexport as <-.
      vm_compute in Hnew. injection Hnew as <-.
      vm_compute in Heq. discriminate.
  - split; [discriminate|].
    split; [apply (bool_decide_unpack _); vm_compute; exact I|].
    split; [reflexivity|]. split; [reflexivity|].
    intros (w' & x' & Hexport & _). vm_compute in Hexport. discriminate.
Qed.

(** ** The cases of the test suite *)

(** [test_DL_export_empty_dataset] assigns the empty dict to an attribute
    of another name, so that the export fails on the unset
    [detectors_location_dict]. *)
Example test_DL_export_empty_dataset :
  export_to_file (DL (DetectorsLocation.Build None (PInt 2021))) "4.txt" Samples.nothing
  = (Raise AttributeError, Samples.nothing).
Proof. reflexivity. Qed.

Example test_GFD_export_empty_dataset :
  export_to_file (GFD (GroundFlowData.Build (Some (PList [])))) "4.txt" Samples.nothing
  = (Raise (Exception "GroundFlowData has no data. Export aborted."), Samples.nothing).
Proof. reflexivity. Qed.

Example test_DITRS_import_wrong_file_serialized :
  construct New_DetectorIdToRoadSections "5.txt" Samples.with_wrong_dataset
  = Raise (Exception "File has incorrect data type. Import aborted.").
Proof. reflexivity. Qed.

Example test_DITRS_import_equals_export :
  ∃ w' x',
    export_to_file (instance_of Samples.road_sections) "2.txt" Samples.nothing
    = (Ok tt, w') ∧
    construct New_DetectorIdToRoadSections "2.txt" w' = Ok x' ∧
    __eq__ x' (instance_of Samples.road_sections) = Ok true.
Proof. eexists _, _. repeat split; vm_compute; reflexivity. Qed.

Example test_OFDS_import_equals_export :
  ∃ w' x',
    export_to_file (instance_of Samples.output_flow) "2.txt" Samples.nothing = (Ok tt, w') ∧
    warnings w' = [] ∧
    construct New_OutputFlowDataSet "2.txt" w' = Ok x' ∧
    other_fields x' = [None] ∧
    __eq__ x' (instance_of Samples.output_flow) = Ok true.
Proof. eexists _, _. repeat split; vm_compute; reflexivity. Qed.

(** * Further properties *)

(** ** Export: new files, unset fields, the empty path, exporting twice *)

(** X1. Exporting a populated instance to a path where no file is and
    that can be opened for writing creates the file with the persisted
    fields, calls [warnings.warn] not at all and leaves the other files
    as they were. *)
Theorem export_creates_file self filepath w v n :
  primary_field self = Some v → py_len v = Ok (S n) →
  can_open_for_writing w filepath → file_at w filepath = None →
  ∃ vals, persisted_fields self = Some vals ∧
    export_to_file self filepath w =
      (Ok tt, World (<[filepath := File vals false]> (fs w)) (warnings w)).
Proof.
  intros Hv Hlen Hpath%can_open_for_writing_nonempty Hnone.
  destruct (export_populated self filepath w v n Hv Hlen Hpath) as (vals & Hvals & Hexp).
  exists vals. split; [done|]. by rewrite Hnone, app_nil_r in Hexp.
Qed.

Lemma export_creates_file_witness :
  let self := instance_of Samples.road_sections in
  (∃ v, primary_field self = Some v ∧ py_len v = Ok 2%nat) ∧
  can_open_for_writing Samples.nothing "1.txt" ∧
  file_at Samples.nothing "1.txt" = None ∧
  ∃ vals, persisted_fields self = Some vals ∧
    export_to_file self "1.txt" Samples.nothing =
      (Ok tt, World (<["1.txt" := File vals false]> ∅) []).
Proof.
  intros self.
  split; [eexists; split; reflexivity|]. split; [reflexivity|]. split; [reflexivity|].
  eapply (export_creates_file self "1.txt" Samples.nothing _ 1);
    [reflexivity | reflexivity | reflexivity | reflexivity].
Defined.

(** X2. When the primary field was never assigned, [export_to_file]
    raises [AttributeError] (not the "has no data" exception), whatever
    the path, and touches neither the files nor the warning log. *)
Theorem export_unset_raises self filepath w :
  primary_field self = None →
  export_to_file self filepath w = (Raise AttributeError, w).
Proof.
  intros Hv. destruct self as [x|x|x|x]; simpl in Hv |- *.
  all: unfold_export; rewrite Hv; reflexivity.
Qed.

Lemma export_unset_raises_witness :
  let self := DL (DetectorsLocation.Build None (PInt 2021)) in
  primary_field self = None ∧
  export_to_file self "4.txt" Samples.nothing = (Raise AttributeError, Samples.nothing).
Proof.
  intros self. split; [reflexivity|].
  apply (export_unset_raises self "4.txt" Samples.nothing). reflexivity.
Defined.

(** X3. Exporting a populated instance to the empty path raises
    [FileNotFoundError] from [open]; no warning is issued and no file is
    created. *)
Theorem export_empty_path_raises self w v n :
  primary_field self = Some v → py_len v = Ok (S n) →
  export_to_file self "" w = (Raise FileNotFoundError, w).
Proof.
  intros Hv Hlen. destruct self as [x|x|x|x]; simpl in Hv |- *.
  all: unfold_export; rewrite Hv; simpl; rewrite Hlen; simpl.
  all: destruct w; reflexivity.
Qed.

Lemma export_empty_path_raises_witness :
  let self := instance_of Samples.ground_flow in
  (∃ v, primary_field self = Some v ∧ py_len v = Ok 2%nat) ∧
  export_to_file self "" (Samples.with_text "3.txt")
  = (Raise FileNotFoundError, Samples.with_text "3.txt").
Proof.
  intros self. split; [eexists; split; reflexivity|].
  eapply (export_empty_path_raises self (Samples.with_text "3.txt") _ 1); reflexivity.
Defined.

(** X4. Exporting the same populated instance twice to the same path,
    one that can be opened for writing, succeeds both times; the second
    export calls [warnings.warn] exactly once and leaves the files as
    the first export left them. *)
Theorem export_twice self filepath w v n :
  primary_field self = Some v → py_len v = Ok (S n) →
  can_open_for_writing w filepath →
  ∃ w1, export_to_file self filepath w = (Ok tt, w1) ∧
        export_to_file self filepath w1 =
          (Ok tt, World (fs w1) (warnings w1 ++ [already_exists])).
Proof.
  intros Hv Hlen Hopen. pose proof (can_open_for_writing_nonempty _ _ Hopen) as Hpath.
  destruct (export_populated self filepath w v n Hv Hlen Hpath) as (vals & Hvals & Hexp).
  eexists. split; [exact Hexp|].
  destruct (export_populated self filepath
              (World (<[filepath := File vals false]> (fs w))
                     (warnings w ++ match file_at w filepath with
                                    | Some _ => [already_exists]
                                    | None => []
                                    end)) v n Hv Hlen Hpath)
    as (vals' & Hvals' & Hexp').
  rewrite Hvals in Hvals'. injection Hvals' as <-.
  rewrite Hexp'. rewrite file_at_insert by done. simpl.
  by rewrite insert_insert_eq.
Qed.

Lemma export_twice_witness :
  let self := instance_of Samples.output_flow in
  (∃ v, primary_field self = Some v ∧ py_len v = Ok 1%nat) ∧
  can_open_for_writing Samples.nothing "1.txt" ∧
  ∃ w1, export_to_file self "1.txt" Samples.nothing = (Ok tt, w1) ∧
        export_to_file self "1.txt" w1 =
          (Ok tt, World (fs w1) (warnings w1 ++ [already_exists])).
Proof.
  intros self.
  split; [eexists; split; reflexivity|]. split; [reflexivity|].
  eapply (export_twice self "1.txt" Samples.nothing _ 0);
    [reflexivity | reflexivity | reflexivity].
Defined.

(** ** Import: what is accepted, and what fails before the checks *)

(** What a constructor call that returned an instance has done: nothing,
    when the path is empty; otherwise it has read the persisted fields
    from the head of the file and checked the primary one. *)
Lemma construct_imported call filepath w x :
  construct call filepath w = Ok x →
  (filepath = "" ∧ primary_field x = None) ∨
  ∃ f vals rest v,
    file_at w filepath = Some f ∧ stream f = (vals ++ rest)%list ∧
    persisted_fields x = Some vals ∧ primary_field x = Some v ∧
    match item_class call with
    | Some cls =>
        ∃ first items, v = PList (first :: items) ∧ isinstance first cls = true
    | None => isinstance_dict v = true
    end.
Proof.
  destruct call; unfold_construct.
  all: destruct (String.eqb_spec filepath "") as [->|Hne]; simpl;
    [intros [= <-]; left; done|]; right; revert H.
  all: destruct (file_at w filepath) as [[objs bad]|]; simpl; [|discriminate].
  all: destruct objs as [|o objs]; simpl; [destruct bad; discriminate|].
  1: { destruct objs as [|y objs]; simpl; [destruct bad; discriminate|].
       destruct (isinstance_dict o) eqn:Hd; simpl; [|discriminate].
       destruct (isinstance_int y); simpl; [|discriminate].
       intros [= <-]. eexists _, [o; y], objs, o. auto. }
  all: destruct o as [n|fl|s|t|d|px py|its|[|a items]|kvs|c attrs];
    simpl; try discriminate.
  all: match goal with
       | |- context [isinstance ?a ?c] => destruct (isinstance a c) eqn:Hfirst
       end; simpl; [|discriminate].
  all: intros [= <-].
  all: eexists _, [PList (a :: items)], objs, _; eauto 10.
Qed.

Lemma construct_list_based call filepath w x :
  construct call filepath w = Ok x → is_Some (item_class call) → list_based x.
Proof.
  intros Hnew [cls Hcls]. destruct call; try discriminate; simpl in Hnew.
  - destruct (GroundFlowData.__init__ filepath w); by simplify_eq/=.
  - destruct (DetectorIdToRoadSections.__init__ filepath w); by simplify_eq/=.
  - destruct (OutputFlowDataSet.__init__ filepath w); by simplify_eq/=.
Qed.

(** X5. When there is no file at the path, [_import_from_file] raises
    [FileNotFoundError] and leaves the instance as it was, and so does
    every constructor that is given the path. *)
Theorem import_missing_file call self filepath w :
  file_at w filepath = None →
  _import_from_file w filepath self = (Raise FileNotFoundError, self) ∧
  (filepath ≠ "" → construct call filepath w = Raise FileNotFoundError).
Proof.
  intros Hnone. split.
  - destruct self; unfold_import; rewrite Hnone; reflexivity.
  - intros Hpath. apply String.eqb_neq in Hpath.
    destruct call; unfold_construct; rewrite Hpath, Hnone; reflexivity.
Qed.

Lemma import_missing_file_witness :
  let self := instance_of Samples.two_locations in
  file_at Samples.nothing "2.txt" = None ∧
  _import_from_file Samples.nothing "2.txt" self = (Raise FileNotFoundError, self) ∧
  construct (New_DetectorsLocation (PInt 2021)) "2.txt" Samples.nothing
  = Raise FileNotFoundError.
Proof.
  intros self. split; [reflexivity|].
  destruct (import_missing_file (New_DetectorsLocation (PInt 2021)) self "2.txt"
              Samples.nothing eq_refl) as [Himp Hnew].
  split; [exact Himp|]. apply Hnew. discriminate.
Defined.

(** X6. A file that ends before the objects that the import reads (an
    empty file for every class, a file with one object for
    [DetectorsLocation]) makes the constructor raise [EOFError]. *)
Theorem import_truncated_eof call filepath w f :
  file_at w filepath = Some f → corrupt f = false →
  (stream f = [] ∨ (item_class call = None ∧ ∃ d, stream f = [d])) →
  construct call filepath w = Raise EOFError.
Proof.
  intros Hf Hc Hs. destruct (file_at_Some _ _ _ Hf) as [Hne _].
  destruct f as [objs [bad|]]; [discriminate Hc|]; simpl in Hs.
  destruct Hs as [-> | [Hcall [d ->]]].
  - destruct call; unfold_construct; rewrite Hne, Hf; reflexivity.
  - destruct call; try discriminate. unfold_construct. rewrite Hne, Hf. reflexivity.
Qed.

Lemma import_truncated_eof_witness :
  let w := World {["9.txt" := File [] false]} [] in
  file_at w "9.txt" = Some (File [] false) ∧
  construct New_OutputFlowDataSet "9.txt" w = Raise EOFError.
Proof.
  intros w. split; [reflexivity|].
  apply (import_truncated_eof New_OutputFlowDataSet "9.txt" w (File [] false));
    [reflexivity | reflexivity | left; reflexivity].
Defined.

(** X7. The constructor of a list-based class accepts a file exactly
    when its first object is a list whose first item is an instance of
    the record class: the other items of the list and the objects after
    it are not looked at, and the list as a whole becomes the primary
    field. *)
Theorem import_checks_first_item_only call cls filepath w f :
  item_class call = Some cls → file_at w filepath = Some f →
  (∀ first items rest,
     stream f = PList (first :: items) :: rest → isinstance first cls = true →
     ∃ x, construct call filepath w = Ok x ∧
          primary_field x = Some (PList (first :: items))) ∧
  (∀ x, construct call filepath w = Ok x →
     ∃ first items rest,
       stream f = PList (first :: items) :: rest ∧ isinstance first cls = true ∧
       primary_field x = Some (PList (first :: items))).
Proof.
  intros Hcls Hf. destruct (file_at_Some _ _ _ Hf) as [Hne _]. split.
  - intros first items rest Hs Hfirst.
    destruct f as [objs bad]; simpl in Hs; subst objs.
    destruct call; try discriminate; injection Hcls as <-.
    all: unfold_construct; rewrite Hne, Hf; simpl; rewrite Hfirst; simpl.
    all: eexists; split; reflexivity.
  - intros x Hnew.
    destruct (construct_imported _ _ _ _ Hnew)
      as [[-> _] | (f' & vals & rest & v & Hf' & Hs & Hvals & Hv & Hcheck)];
      [discriminate|].
    rewrite Hf in Hf'. injection Hf' as <-.
    rewrite Hcls in Hcheck. destruct Hcheck as (first & items & -> & Hfirst).
    unfold persisted_fields in Hvals. rewrite Hv in Hvals. simpl in Hvals.
    exists first, items, rest. repeat split; try done.
    pose proof (construct_list_based _ _ _ _ Hnew (mk_is_Some _ _ Hcls)) as Hx.
    destruct x; try contradiction; by injection Hvals as <-.
Qed.

Lemma import_checks_first_item_only_witness :
  let record := DetectorIdToRoadSection.obj (DetectorIdToRoadSection.Build 17 5) in
  let mixed := PList [record; PStr "not a record"; PInt 3] in
  let w := World {["5.txt" := File [mixed; PStr "more"] false]} [] in
  item_class New_DetectorIdToRoadSections = Some DetectorIdToRoadSection_class ∧
  file_at w "5.txt" = Some (File [mixed; PStr "more"] false) ∧
  isinstance record DetectorIdToRoadSection_class = true ∧
  ∃ x, construct New_DetectorIdToRoadSections "5.txt" w = Ok x ∧
       primary_field x = Some mixed.
Proof.
  intros record mixed w.
  split; [reflexivity|]. split; [reflexivity|]. split; [reflexivity|].
  destruct (import_checks_first_item_only New_DetectorIdToRoadSections
              DetectorIdToRoadSection_class "5.txt" w
              (File [mixed; PStr "more"] false) eq_refl eq_refl) as [Haccept _].
  apply (Haccept record [PStr "not a record"; PInt 3] [PStr "more"]); reflexivity.
Defined.

(** ** Import followed by export *)

(** X8. An instance that a list-based constructor returned from a file
    holds a list that [export_to_file] accepts: exporting it to a path
    that can be opened for writing succeeds, and the new file holds
    exactly the list that was read. *)
Theorem import_then_export call filepath target w w' x :
  is_Some (item_class call) → filepath ≠ "" → can_open_for_writing w' target →
  construct call filepath w = Ok x →
  ∃ f v rest,
    file_at w filepath = Some f ∧ stream f = v :: rest ∧
    ∃ w'', export_to_file x target w' = (Ok tt, w'') ∧
           file_at w'' target = Some (File [v] false).
Proof.
  intros Hcall Hpath Htarget%can_open_for_writing_nonempty Hnew.
  destruct (construct_imported _ _ _ _ Hnew)
    as [[-> _] | (f & vals & rest & v & Hf & Hs & Hvals & Hv & Hcheck)]; [done|].
  destruct Hcall as [cls Hcls]. rewrite Hcls in Hcheck.
  destruct Hcheck as (first & items & -> & Hfirst).
  pose proof (construct_list_based _ _ _ _ Hnew (mk_is_Some _ _ Hcls)) as Hx.
  assert (vals = [PList (first :: items)]) as ->.
  { unfold persisted_fields in Hvals. rewrite Hv in Hvals.
    destruct x; try contradiction; by injection Hvals as <-. }
  destruct (export_populated x target w' _ (length items) Hv eq_refl Htarget)
    as (vals' & Hvals' & Hexp).
  unfold persisted_fields in Hvals'. rewrite Hv in Hvals'.
  assert (vals' = [PList (first :: items)]) as ->
    by (destruct x; try contradiction; by injection Hvals' as <-).
  exists f, (PList (first :: items)), rest. split; [done|]. split; [done|].
  eexists. split; [exact Hexp|]. by apply file_at_insert.
Qed.

Lemma import_then_export_witness :
  let record := OutputFlowData.obj (OutputFlowData.Build 17 [] 5) in
  let w := World {["a.bin" := File [PList [record; PInt 0]] false]} [] in
  is_Some (item_class New_OutputFlowDataSet) ∧ "a.bin" ≠ "" ∧
  can_open_for_writing w "b.bin" ∧
  construct New_OutputFlowDataSet "a.bin" w
  = Ok (OFDS (OutputFlowDataSet.Build (Some (PList [record; PInt 0])) None)) ∧
  ∃ f v rest,
    file_at w "a.bin" = Some f ∧ stream f = v :: rest ∧
    ∃ w'', export_to_file
             (OFDS (OutputFlowDataSet.Build (Some (PList [record; PInt 0])) None))
             "b.bin" w = (Ok tt, w'') ∧
           file_at w'' "b.bin" = Some (File [v] false).
Proof.
  intros record w.
  assert (Hcall : is_Some (item_class New_OutputFlowDataSet)) by (eexists; reflexivity).
  assert (Ha : "a.bin" ≠ "") by discriminate.
  assert (Hb : can_open_for_writing w "b.bin") by reflexivity.
  split; [exact Hcall|]. split; [exact Ha|]. split; [exact Hb|]. split; [reflexivity|].
  exact (import_then_export New_OutputFlowDataSet "a.bin" "b.bin" w w _
           Hcall Ha Hb eq_refl).
Defined.

(** X9. [DetectorsLocation] accepts a file whose mapping is empty, which
    [export_to_file] never writes: the import succeeds, and the instance
    that it returns cannot be exported. *)
Theorem import_empty_mapping (year : pyobj) filepath target w w' f y rest :
  file_at w filepath = Some f → stream f = PDict [] :: PInt y :: rest →
  DetectorsLocation.__init__ year filepath w
  = Ok (DetectorsLocation.Build (Some (PDict [])) (PInt y)) ∧
  DetectorsLocation.export_to_file
    (DetectorsLocation.Build (Some (PDict [])) (PInt y)) target w'
  = (Raise (Exception "DetectorsLocation has no data. Export aborted."), w').
Proof.
  intros Hf Hs. destruct (file_at_Some _ _ _ Hf) as [Hne _].
  destruct f as [objs bad]; simpl in Hs; subst objs. split; [|reflexivity].
  unfold_construct. by rewrite Hne, Hf.
Qed.

Lemma import_empty_mapping_witness :
  let w := World {["e.bin" := File [PDict []; PInt 2021] false]} [] in
  file_at w "e.bin" = Some (File [PDict []; PInt 2021] false) ∧
  DetectorsLocation.__init__ (PInt 1999) "e.bin" w
  = Ok (DetectorsLocation.Build (Some (PDict [])) (PInt 2021)) ∧
  DetectorsLocation.export_to_file
    (DetectorsLocation.Build (Some (PDict [])) (PInt 2021)) "f.bin" w
  = (Raise (Exception "DetectorsLocation has no data. Export aborted."), w).
Proof.
  intros w. split; [reflexivity|].
  apply (import_empty_mapping (PInt 1999) "e.bin" "f.bin" w w
           (File [PDict []; PInt 2021] false) 2021 []); reflexivity.
Defined.

(** ** Instances constructed without a path *)

(** X10. A list-based instance constructed without a path has no primary
    field: exporting it raises [AttributeError] and leaves the files
    alone, and comparing it with any instance raises [AttributeError],
    also from the other side when the other instance has a dataset. *)
Theorem fresh_instance_unusable call w x :
  is_Some (item_class call) → construct call "" w = Ok x →
  primary_field x = None ∧
  (∀ filepath w', export_to_file x filepath w' = (Raise AttributeError, w')) ∧
  (∀ other, __eq__ x other = Raise AttributeError) ∧
  (∀ other v n, list_based other → primary_field other = Some v → py_len v = Ok n →
                __eq__ other x = Raise AttributeError).
Proof.
  intros [cls Hcls] Hnew.
  destruct call; try discriminate; injection Hnew as <-.
  all: split; [reflexivity|]; split; [intros; reflexivity|]; split.
  all: try (intros [o|o|o|o]; reflexivity).
  all: intros [o|o|o|o] v n Hl Hv Hn; try contradiction; try reflexivity; simpl in Hv.
  all: cbv [__eq__ GroundFlowData.__eq__ DetectorIdToRoadSections.__eq__
            OutputFlowDataSet.__eq__ mbind result_bind].
  all: rewrite Hv; simpl; rewrite Hn; reflexivity.
Qed.

Lemma fresh_instance_unusable_witness :
  let x := GFD (GroundFlowData.Build None) in
  is_Some (item_class New_GroundFlowData) ∧
  construct New_GroundFlowData "" Samples.nothing = Ok x ∧
  export_to_file x "1.txt" Samples.nothing = (Raise AttributeError, Samples.nothing) ∧
  __eq__ x x = Raise AttributeError ∧
  __eq__ (instance_of Samples.ground_flow) x = Raise AttributeError.
Proof.
  intros x.
  assert (Hcall : is_Some (item_class New_GroundFlowData)) by (eexists; reflexivity).
  destruct (fresh_instance_unusable New_GroundFlowData Samples.nothing x Hcall eq_refl)
    as (_ & Hexp & Heq & Heq').
  split; [exact Hcall|]. split; [reflexivity|]. split; [apply Hexp|].
  split; [apply Heq|].
  eapply (Heq' (instance_of Samples.ground_flow) _ 2%nat); [exact I|reflexivity..].
Defined.

(** X11. [DetectorsLocation(year)], constructed without a path, has its
    year and no mapping.  Compared with any other instance it is unequal
    when the years differ, without the mappings being read, and the
    comparison raises [AttributeError] when the years are equal. *)
Theorem fresh_DetectorsLocation_eq (year : pyobj) w (other : DetectorsLocation.t) :
  DetectorsLocation.__init__ year "" w = Ok (DetectorsLocation.Build None year) ∧
  DetectorsLocation.__eq__ (DetectorsLocation.Build None year) other
  = if py_eq year (DetectorsLocation.year other) then Raise AttributeError else Ok false.
Proof.
  split; [reflexivity|].
  unfold DetectorsLocation.__eq__, py_ne. simpl.
  by destruct (py_eq year (DetectorsLocation.year other)).
Qed.

(** ** Equality on typed datasets *)

Section lookup.
Context {T V : Type} `{Countable T}.
Variables (inj : T → pyobj) (val : V → pyobj).
Hypothesis py_eq_inj : ∀ a b, py_eq (inj a) (inj b) = bool_decide (a = b).

(** Looking a key up in the items of a dict is a lookup in the finite
    map of the items. *)
Lemma assoc_find_lookup (xs : list (T * V)) (k : T) :
  assoc_find (py_eq (inj k)) ((λ a, (inj a.1, val a.2)) <$> xs)
  = val <$> (list_to_map xs : gmap T V) !! k.
Proof.
  induction xs as [|[k' v] xs IH]; simpl; [by rewrite lookup_empty|].
  rewrite py_eq_inj. case_bool_decide as Hk.
  - subst k'. by rewrite lookup_insert_eq.
  - rewrite lookup_insert_ne by done. exact IH.
Qed.
End lookup.

Lemma forallb_fmap_ext {A B} (f : B → bool) (g : A → B) (h : A → bool) xs :
  (∀ x, f (g x) = h x) → forallb f (g <$> xs) = forallb h xs.
Proof.
  intros Hfg. induction xs as [|x xs IH]; [done|].
  rewrite fmap_cons. cbn [forallb]. by rewrite Hfg, IH.
Qed.

Lemma py_eq_flow_data fd fd' :
  py_eq (flow_data_obj fd) (flow_data_obj fd') = flow_data_eqb fd fd'.
Proof.
  unfold flow_data_obj, flow_data_eqb. rewrite py_eq_dict, !length_fmap. f_equal.
  apply forallb_fmap_ext. intros [t v]. cbn [fst snd].
  rewrite (assoc_find_lookup PTimestamp PFloat (λ a b, eq_refl) fd' t).
  by destruct (list_to_map fd' !! t).
Qed.

Lemma location_lookup (eb : list location) (k : Z) :
  assoc_find (py_eq (PInt k)) (location_item <$> eb)
  = (λ v : Direction * (spec_float * spec_float), PTuple [PEnum v.1; PPoint v.2.1 v.2.2])
    <$> (list_to_map eb : gmap Z _) !! k.
Proof.
  exact (assoc_find_lookup PInt
           (λ v : Direction * (spec_float * spec_float),
              PTuple [PEnum v.1; PPoint v.2.1 v.2.2])
           py_eq_int_decide eb k).
Qed.

Lemma DetectorsLocation_eq_loop_typed (ea eb es : list location) (ya yb : pyobj) :
  NoDup ea.*1 → es ⊆ ea →
  DetectorsLocation.eq_loop
    (DetectorsLocation.Build (Some (PDict (location_item <$> ea))) ya)
    (DetectorsLocation.Build (Some (PDict (location_item <$> eb))) yb)
    ((location_item <$> es).*1)
  = Ok (included es eb).
Proof.
  intros Hnd Hsub. induction es as [|e es IH]; [reflexivity|].
  assert (He : e ∈ ea) by (apply Hsub; left).
  assert (Hes : es ⊆ ea) by (intros a Ha; apply Hsub; by right).
  assert (Hself : assoc_find (py_eq (PInt e.1)) (location_item <$> ea)
                  = Some (PTuple [PEnum e.2.1; PPoint e.2.2.1 e.2.2.2]))
    by exact (assoc_find_unique PInt fst
                (λ e : location, PTuple [PEnum e.2.1; PPoint e.2.2.1 e.2.2.2])
                py_eq_int_decide ea e Hnd He).
  rewrite !fmap_cons. cbn [DetectorsLocation.eq_loop included forallb].
  cbn [DetectorsLocation.detectors_location_dict attribute mbind result_bind
       py_contains py_getitem hashable location_item fst].
  rewrite location_lookup, Hself.
  destruct (list_to_map eb !! e.1) as [[d' [x' y']]|]; [|reflexivity].
  cbn [fmap option_fmap option_map bool_decide decide_rel is_Some_dec mbind result_bind].
  rewrite !tuple_item_0, !tuple_item_1. cbn [mbind result_bind].
  unfold attr_eq, and_lazy, location_eqb. cbn -[py_eq included].
  change (py_eq (PEnum e.2.1) (PEnum d')) with (bool_decide (e.2.1 = d')).
  change (py_eq (PFloat e.2.2.1) (PFloat x')) with (SFeqb e.2.2.1 x').
  change (py_eq (PFloat e.2.2.2) (PFloat y')) with (SFeqb e.2.2.2 y').
  rewrite (IH Hes).
  destruct (bool_decide (e.2.1 = d')); [|reflexivity]. cbn.
  destruct (SFeqb e.2.2.1 x'); [|reflexivity]. cbn.
  by destruct (SFeqb e.2.2.2 y').
Qed.

Lemma DetectorsLocation_eq_typed (ea eb : list location) (ya yb : Z) :
  NoDup ea.*1 →
  __eq__ (instance_of (Locations ea ya)) (instance_of (Locations eb yb))
  = Ok (bool_decide (ya = yb) && included ea eb).
Proof.
  intros Hnd. simpl. unfold DetectorsLocation.__eq__, py_ne.
  cbn [DetectorsLocation.year]. rewrite py_eq_int_decide.
  case_bool_decide; [|reflexivity].
  cbn [negb DetectorsLocation.detectors_location_dict attribute mbind result_bind py_iter].
  by apply DetectorsLocation_eq_loop_typed.
Qed.

Lemma included_spec (ea eb : list location) :
  NoDup eb.*1 →
  included ea eb = true ↔
  ∀ k va, (k, va) ∈ ea → ∃ vb, (k, vb) ∈ eb ∧ location_eqb va vb = true.
Proof.
  intros Hnd. unfold included. rewrite forallb_forall. split.
  - intros Hall k va Hin. specialize (Hall (k, va) (proj1 (list_elem_of_In _ _) Hin)).
    simpl in Hall. destruct (list_to_map eb !! k) as [vb|] eqn:Hk; [|done].
    exists vb. split; [|done]. by apply elem_of_list_to_map.
  - intros Hall [k va] Hin. apply list_elem_of_In in Hin.
    destruct (Hall k va Hin) as (vb & Hvb & Heq). simpl.
    by rewrite (proj1 (elem_of_list_to_map eb k vb Hnd) Hvb).
Qed.

(** X12. On typed mappings, [DetectorsLocation.__eq__] never raises, and
    it answers [True] exactly when the years are equal and every key of
    the left mapping is a key of the right mapping with the same
    direction and coordinates: it is an inclusion of the left instance
    in the right one, and keys that only the right one has are ignored. *)
Theorem DetectorsLocation_eq_is_inclusion (ea eb : list location) (ya yb : Z) :
  NoDup ea.*1 → NoDup eb.*1 →
  ∃ b, __eq__ (instance_of (Locations ea ya)) (instance_of (Locations eb yb)) = Ok b ∧
       (b = true ↔
        ya = yb ∧
        ∀ k va, (k, va) ∈ ea → ∃ vb, (k, vb) ∈ eb ∧ location_eqb va vb = true).
Proof.
  intros Ha Hb. eexists. split; [by apply DetectorsLocation_eq_typed|].
  rewrite andb_true_iff, bool_decide_eq_true. by rewrite included_spec.
Qed.

Lemma DetectorsLocation_eq_is_inclusion_witness :
  let ea := [(17, (north_bound, (Samples.one_half, Samples.three)))] in
  let eb := [(42, (west_bound, (Samples.three, S754_zero false)));
             (17, (north_bound, (Samples.one_half, Samples.three)))] in
  NoDup ea.*1 ∧ NoDup eb.*1 ∧
  ∃ b, __eq__ (instance_of (Locations ea 2021)) (instance_of (Locations eb 2021)) = Ok b ∧
       (b = true ↔
        2021 = 2021 ∧
        ∀ k va, (k, va) ∈ ea → ∃ vb, (k, vb) ∈ eb ∧ location_eqb va vb = true).
Proof.
  intros ea eb.
  assert (Ha : NoDup ea.*1) by (apply (bool_decide_unpack _); vm_compute; exact I).
  assert (Hb : NoDup eb.*1) by (apply (bool_decide_unpack _); vm_compute; exact I).
  split; [exact Ha|]. split; [exact Hb|].
  exact (DetectorsLocation_eq_is_inclusion ea eb 2021 2021 Ha Hb).
Defined.

Lemma forallb_Permutation {A} (f : A → bool) (xs ys : list A) :
  xs ≡ₚ ys → forallb f xs = forallb f ys.
Proof.
  intros Hp. apply eq_bool_prop_intro. rewrite !forallb_True. by rewrite Hp.
Qed.

(** X13. The order in which the items were put in the two mappings does
    not matter to [DetectorsLocation.__eq__]: reordering the items of
    either side leaves its result as it is. *)
Theorem DetectorsLocation_eq_order (ea ea' eb eb' : list location) (ya yb : Z) :
  NoDup ea.*1 → NoDup eb.*1 → ea ≡ₚ ea' → eb ≡ₚ eb' →
  __eq__ (instance_of (Locations ea' ya)) (instance_of (Locations eb' yb))
  = __eq__ (instance_of (Locations ea ya)) (instance_of (Locations eb yb)).
Proof.
  intros Ha Hb Hpa Hpb.
  assert (Ha' : NoDup ea'.*1) by (by rewrite <- Hpa).
  rewrite !DetectorsLocation_eq_typed by done. do 2 f_equal.
  unfold included. rewrite <- (list_to_map_proper eb eb' Hb Hpb).
  symmetry. by apply forallb_Permutation.
Qed.

Lemma DetectorsLocation_eq_order_witness :
  let e1 : location := (17, (north_bound, (Samples.one_half, Samples.three))) in
  let e2 : location := (42, (west_bound, (Samples.three, S754_zero false))) in
  NoDup [e1; e2].*1 ∧ [e1; e2] ≡ₚ [e2; e1] ∧
  __eq__ (instance_of (Locations [e1; e2] 2021)) (instance_of (Locations [e2; e1] 2021))
  = __eq__ (instance_of (Locations [e1; e2] 2021)) (instance_of (Locations [e1; e2] 2021)).
Proof.
  intros e1 e2.
  assert (Hnd : NoDup [e1; e2].*1) by (apply (bool_decide_unpack _); vm_compute; exact I).
  assert (Hp : [e1; e2] ≡ₚ [e2; e1]) by apply Permutation_swap.
  split; [exact Hnd|]. split; [exact Hp|].
  exact (DetectorsLocation_eq_order [e1; e2] [e1; e2] [e1; e2] [e2; e1] 2021 2021
           Hnd Hnd (reflexivity _) Hp).
Defined.

(** *** The index loops of the list-based classes *)

Section index_loop.
Context {R : Type} (cmp : R → R → bool) (xs ys : list R).

(** A loop that returns [False] at the first index where [cmp] fails. *)
Variable loop : list pyobj → result bool.
Hypothesis loop_nil : loop [] = Ok true.
Hypothesis loop_cons : ∀ i ns a b,
  xs !! i = Some a → ys !! i = Some b →
  loop (PInt (Z.of_nat i) :: ns) = if cmp a b then loop ns else Ok false.

Lemma index_loop_from (m k : nat) :
  length xs = (k + m)%nat → length ys = (k + m)%nat →
  loop (indices (seq k m)) = Ok (all2 cmp (drop k xs) (drop k ys)).
Proof.
  revert k. induction m as [|m IH]; intros k Hx Hy.
  - rewrite !drop_ge by lia. exact loop_nil.
  - destruct (lookup_lt_is_Some_2 xs k ltac:(lia)) as [a Ha].
    destruct (lookup_lt_is_Some_2 ys k ltac:(lia)) as [b Hb].
    rewrite (drop_S _ _ _ Ha), (drop_S _ _ _ Hb).
    cbn [seq indices fmap list_fmap all2].
    rewrite (loop_cons k _ a b Ha Hb).
    destruct (cmp a b); [|reflexivity].
    apply (IH (S k)); lia.
Qed.

(** A loop that goes through all the indices and remembers a failure. *)
Variable flag_loop : list pyobj → bool → result bool.
Hypothesis flag_loop_nil : ∀ equality, flag_loop [] equality = Ok equality.
Hypothesis flag_loop_cons : ∀ i ns a b equality,
  xs !! i = Some a → ys !! i = Some b →
  flag_loop (PInt (Z.of_nat i) :: ns) equality
  = flag_loop ns (if negb (cmp a b) then false else equality).

Lemma flag_loop_from (m k : nat) (equality : bool) :
  length xs = (k + m)%nat → length ys = (k + m)%nat →
  flag_loop (indices (seq k m)) equality
  = Ok (equality && all2 cmp (drop k xs) (drop k ys)).
Proof.
  revert k equality. induction m as [|m IH]; intros k equality Hx Hy.
  - rewrite !drop_ge by lia. rewrite flag_loop_nil. by rewrite andb_true_r.
  - destruct (lookup_lt_is_Some_2 xs k ltac:(lia)) as [a Ha].
    destruct (lookup_lt_is_Some_2 ys k ltac:(lia)) as [b Hb].
    rewrite (drop_S _ _ _ Ha), (drop_S _ _ _ Hb).
    cbn [seq indices fmap list_fmap all2].
    rewrite (flag_loop_cons k _ a b equality Ha Hb).
    rewrite (IH (S k)) by lia.
    by destruct (cmp a b), equality.
Qed.
End index_loop.

Lemma all2_length {A B} (f : A → B → bool) xs ys :
  length xs ≠ length ys → all2 f xs ys = false.
Proof.
  revert ys. induction xs as [|x xs IH]; intros [|y ys] Hlen; simpl in *; try done.
  rewrite IH by lia. apply andb_false_r.
Qed.

Lemma py_ne_int a b : py_ne (PInt a) (PInt b) = negb (a =? b).
Proof. reflexivity. Qed.
Lemma py_ne_str a b : py_ne (PStr a) (PStr b) = negb (String.eqb a b).
Proof. reflexivity. Qed.
Lemma py_ne_enum (a b : Direction) : py_ne (PEnum a) (PEnum b) = negb (bool_decide (a = b)).
Proof. reflexivity. Qed.
Lemma py_ne_flow_data fd fd' :
  py_ne (flow_data_obj fd) (flow_data_obj fd') = negb (flow_data_eqb fd fd').
Proof. unfold py_ne. by rewrite py_eq_flow_data. Qed.

Lemma DetectorIdToRoadSection_differ (a b : DetectorIdToRoadSection.t) :
  let o := DetectorIdToRoadSection.obj a in
  let o' := DetectorIdToRoadSection.obj b in
  attr_ne o o' "detector_id" ||| attr_ne o o' "section_id"
  = Ok (negb (DetectorIdToRoadSection_eqb a b)).
Proof.
  cbn -[py_ne]. rewrite !py_ne_int. unfold DetectorIdToRoadSection_eqb.
  by destruct (DetectorIdToRoadSection.detector_id a =? _),
       (DetectorIdToRoadSection.section_id a =? _).
Qed.

Lemma DetectorFlowData_differ (a b : DetectorFlowData.t) :
  let o := DetectorFlowData.obj a in
  let o' := DetectorFlowData.obj b in
  attr_ne o o' "detector_id" ||| attr_ne o o' "direction" ||| attr_ne o o' "flow_data"
  ||| attr_ne o o' "name" ||| attr_ne o o' "year"
  = Ok (negb (DetectorFlowData_eqb a b)).
Proof.
  cbn -[py_ne flow_data_obj]. unfold or_lazy.
  rewrite !py_ne_int, py_ne_enum, py_ne_str, py_ne_flow_data.
  unfold DetectorFlowData_eqb.
  by destruct (DetectorFlowData.detector_id a =? _), (bool_decide _),
       (flow_data_eqb _ _), (String.eqb _ _), (DetectorFlowData.year a =? _).
Qed.

Lemma OutputFlowData_differ (a b : OutputFlowData.t) :
  let o := OutputFlowData.obj a in
  let o' := OutputFlowData.obj b in
  attr_ne o o' "detector_id" ||| attr_ne o o' "flow_data" ||| attr_ne o o' "section_id"
  = Ok (negb (OutputFlowData_eqb a b)).
Proof.
  cbn -[py_ne flow_data_obj]. unfold or_lazy.
  rewrite !py_ne_int, py_ne_flow_data.
  unfold OutputFlowData_eqb.
  by destruct (OutputFlowData.detector_id a =? _), (flow_data_eqb _ _),
       (OutputFlowData.section_id a =? _).
Qed.

Lemma DetectorIdToRoadSections_eq_typed (ps qs : list DetectorIdToRoadSection.t) :
  __eq__ (instance_of (RoadSections ps)) (instance_of (RoadSections qs))
  = Ok (all2 DetectorIdToRoadSection_eqb ps qs).
Proof.
  simpl. unfold DetectorIdToRoadSections.__eq__.
  cbn -[DetectorIdToRoadSections.eq_loop py_range]. rewrite !length_fmap.
  destruct (Nat.eqb_spec (length ps) (length qs)) as [Hlen|Hlen];
    cbn -[DetectorIdToRoadSections.eq_loop py_range];
    [|by rewrite all2_length].
  rewrite py_range_indices.
  rewrite (index_loop_from DetectorIdToRoadSection_eqb ps qs
             (DetectorIdToRoadSections.eq_loop _ _) eq_refl);
    [by rewrite !drop_0 | | done | lia].
  intros i ns a b Ha Hb. cbn [DetectorIdToRoadSections.eq_loop].
  cbn [DetectorIdToRoadSections.aimsun_detector_locations attribute mbind result_bind].
  apply (list_lookup_fmap_Some_2 DetectorIdToRoadSection.obj) in Ha, Hb.
  rewrite (getitem_index _ _ _ Ha), (getitem_index _ _ _ Hb).
  cbn [mbind result_bind]. rewrite DetectorIdToRoadSection_differ.
  cbn [mbind result_bind]. by destruct (DetectorIdToRoadSection_eqb a b).
Qed.

Lemma DetectorIdToRoadSection_eqb_eq (a b : DetectorIdToRoadSection.t) :
  DetectorIdToRoadSection_eqb a b = true ↔ a = b.
Proof.
  unfold DetectorIdToRoadSection_eqb. rewrite andb_true_iff, !Z.eqb_eq.
  destruct a, b; simpl; split; [intros [-> ->]; done | intros [= -> ->]; done].
Qed.

Lemma all2_eq {A} (eqb : A → A → bool) (xs ys : list A) :
  (∀ a b, eqb a b = true ↔ a = b) → all2 eqb xs ys = true ↔ xs = ys.
Proof.
  intros Heqb. revert ys. induction xs as [|x xs IH]; intros [|y ys]; simpl; try done.
  rewrite andb_true_iff, Heqb, IH. split; [intros [-> ->]; done | intros [= -> ->]; done].
Qed.

(** X14. On typed lists, [DetectorIdToRoadSections.__eq__] never raises,
    and it answers [True] exactly when the two lists are the same list
    of (detector id, section id) pairs: same length, same pairs, same
    order. *)
Theorem DetectorIdToRoadSections_eq_is_list_equality
    (ps qs : list DetectorIdToRoadSection.t) :
  ∃ b, __eq__ (instance_of (RoadSections ps)) (instance_of (RoadSections qs)) = Ok b ∧
       (b = true ↔ ps = qs).
Proof.
  eexists. split; [apply DetectorIdToRoadSections_eq_typed|].
  apply all2_eq, DetectorIdToRoadSection_eqb_eq.
Qed.

(** X15. On typed lists in which no flow volume is NaN,
    [GroundFlowData.__eq__] never raises, and although its loop goes on
    after a difference, its answer is the index-by-index comparison of
    the two lists on detector id, direction, flow data, name and year
    ([False] when the lengths differ). *)
Theorem GroundFlowData_eq_typed (ds ds' : list DetectorFlowData.t) :
  regular (GroundFlow ds) → regular (GroundFlow ds') →
  __eq__ (instance_of (GroundFlow ds)) (instance_of (GroundFlow ds'))
  = Ok (all2 DetectorFlowData_eqb ds ds').
Proof.
  intros _ _. simpl. unfold GroundFlowData.__eq__.
  cbn -[GroundFlowData.eq_loop py_range]. rewrite !length_fmap.
  destruct (Nat.eqb_spec (length ds) (length ds')) as [Hlen|Hlen];
    cbn -[GroundFlowData.eq_loop py_range];
    [|by rewrite all2_length].
  rewrite py_range_indices.
  rewrite (flag_loop_from DetectorFlowData_eqb ds ds'
             (GroundFlowData.eq_loop _ _) (λ e, eq_refl));
    [by rewrite !drop_0 | | done | lia].
  intros i ns a b equality Ha Hb. cbn [GroundFlowData.eq_loop].
  cbn [GroundFlowData.detector_flow_data attribute mbind result_bind].
  apply (list_lookup_fmap_Some_2 DetectorFlowData.obj) in Ha, Hb.
  rewrite (getitem_index _ _ _ Ha), (getitem_index _ _ _ Hb).
  cbn [mbind result_bind]. rewrite DetectorFlowData_differ. reflexivity.
Qed.

Lemma GroundFlowData_eq_typed_witness :
  let ds := [Samples.detector Samples.one_half; Samples.detector Samples.three] in
  let ds' := [Samples.detector Samples.one_half; Samples.detector Samples.one_half] in
  regular (GroundFlow ds) ∧ regular (GroundFlow ds') ∧
  __eq__ (instance_of (GroundFlow ds)) (instance_of (GroundFlow ds')) = Ok false.
Proof.
  intros ds ds'.
  assert (Hreg : regular (GroundFlow ds))
    by (apply (bool_decide_unpack _); vm_compute; exact I).
  assert (Hreg' : regular (GroundFlow ds'))
    by (apply (bool_decide_unpack _); vm_compute; exact I).
  split; [exact Hreg|]. split; [exact Hreg'|].
  exact (GroundFlowData_eq_typed ds ds' Hreg Hreg').
Defined.

(** X16. On typed lists in which no flow volume is NaN,
    [OutputFlowDataSet.__eq__] never raises, and its answer is the
    index-by-index comparison of the two lists on detector id, flow data
    and section id ([False] when the lengths differ), whatever the two
    [year] fields hold. *)
Theorem OutputFlowDataSet_eq_typed (ds ds' : list OutputFlowData.t) (y y' : option pyobj) :
  regular (OutputFlow ds y) → regular (OutputFlow ds' y') →
  __eq__ (instance_of (OutputFlow ds y)) (instance_of (OutputFlow ds' y'))
  = Ok (all2 OutputFlowData_eqb ds ds').
Proof.
  intros _ _. simpl. unfold OutputFlowDataSet.__eq__.
  cbn -[OutputFlowDataSet.eq_loop py_range]. rewrite !length_fmap.
  destruct (Nat.eqb_spec (length ds) (length ds')) as [Hlen|Hlen];
    cbn -[OutputFlowDataSet.eq_loop py_range];
    [|by rewrite all2_length].
  rewrite py_range_indices.
  rewrite (index_loop_from OutputFlowData_eqb ds ds'
             (OutputFlowDataSet.eq_loop _ _) eq_refl);
    [by rewrite !drop_0 | | done | lia].
  intros i ns a b Ha Hb. cbn [OutputFlowDataSet.eq_loop].
  cbn [OutputFlowDataSet.flow_data_set attribute mbind result_bind].
  apply (list_lookup_fmap_Some_2 OutputFlowData.obj) in Ha, Hb.
  rewrite (getitem_index _ _ _ Ha), (getitem_index _ _ _ Hb).
  cbn [mbind result_bind]. rewrite OutputFlowData_differ.
  cbn [mbind result_bind]. by destruct (OutputFlowData_eqb a b).
Qed.

Lemma OutputFlowDataSet_eq_typed_witness :
  let ds := [OutputFlowData.Build 17 [(Time 0, Samples.one_half)] 5] in
  regular (OutputFlow ds (Some (PInt 2020))) ∧ regular (OutputFlow ds None) ∧
  __eq__ (instance_of (OutputFlow ds (Some (PInt 2020)))) (instance_of (OutputFlow ds None))
  = Ok true.
Proof.
  intros ds.
  assert (Hreg : regular (OutputFlow ds (Some (PInt 2020))))
    by (apply (bool_decide_unpack _); vm_compute; exact I).
  assert (Hreg' : regular (OutputFlow ds None))
    by (apply (bool_decide_unpack _); vm_compute; exact I).
  split; [exact Hreg|]. split; [exact Hreg'|].
  exact (OutputFlowDataSet_eq_typed ds ds (Some (PInt 2020)) None Hreg Hreg').
Defined.

(** ** The dataset generators *)

Lemma drawn_direction_value z :
  Direction_of_value (1 + z `mod` 4) = λ r, (inr (drawn_direction z), r).
Proof.
  unfold Direction_of_value, drawn_direction.
  pose proof (Z.mod_pos_bound z 4 ltac:(lia)) as Hz.
  assert (z `mod` 4 = 0 ∨ z `mod` 4 = 1 ∨ z `mod` 4 = 2 ∨ z `mod` 4 = 3)
    as [-> | [-> | [-> | ->]]] by lia; reflexivity.
Qed.

Lemma drawn_locations_S r n :
  drawn_locations r (S n)
  = drawn_location r 0
    :: drawn_locations (Rng (integers r) (reals r) (S (S (integers_drawn r)))
                            (S (S (reals_drawn r)))) n.
Proof.
  unfold drawn_locations. rewrite <- cons_seq, fmap_cons. f_equal.
  rewrite <- fmap_S_seq, <- list_fmap_compose. apply list_fmap_ext.
  intros i x _. unfold drawn_location, compose. simpl.
  repeat (f_equal; try lia).
Qed.

Lemma add_loop_spec count (d : list (pyobj * pyobj)) r :
  createDLDataset.add_loop count d r
  = (inr (foldl set_location d (drawn_locations r count)), after_rounds r count 2).
Proof.
  revert d r. induction count as [|count IH]; intros d r.
  - destruct r. unfold after_rounds. simpl. by rewrite !Nat.add_0_r.
  - rewrite drawn_locations_S. cbn [createDLDataset.add_loop foldl].
    unfold createDLDataset.generate_id, createDLDataset.generate_direction,
      createDLDataset.generate_point.
    cbv [mbind Gen_bind mret Gen_ret randint uniform py_assert isinstance_int
         isinstance_Direction isinstance_Point].
    cbn [integers reals integers_drawn reals_drawn].
    rewrite drawn_direction_value. rewrite IH.
    unfold after_rounds. cbn [integers reals integers_drawn reals_drawn].
    f_equal; [|f_equal; lia].
    f_equal. f_equal. unfold set_location, location_item, drawn_location.
    cbn [fst snd]. rewrite !Nat.mul_0_r, !Nat.add_0_r.
    replace (integers_drawn r + 1)%nat with (S (integers_drawn r)) by lia.
    replace (reals_drawn r + 1)%nat with (S (reals_drawn r)) by lia.
    replace (9999 - 0 + 1) with 10000 by lia. reflexivity.
Qed.

Lemma set_location_cons (a e : location) (ds : list location) :
  set_location (location_item <$> a :: ds) e
  = if bool_decide (e.1 = a.1) then location_item (a.1, e.2) :: (location_item <$> ds)
    else location_item a :: set_location (location_item <$> ds) e.
Proof.
  unfold set_location. rewrite fmap_cons. cbn [dict_setitem location_item fst snd].
  rewrite py_eq_int_decide. by case_bool_decide.
Qed.

Lemma set_location_absent (ds : list location) (e : location) :
  e.1 ∉ ds.*1 → set_location (location_item <$> ds) e = location_item <$> (ds ++ [e])%list.
Proof.
  induction ds as [|a ds IH]; intros Hnot; [by destruct e as [k [d [x y]]]|].
  rewrite fmap_cons in Hnot. apply not_elem_of_cons in Hnot as [Hne Hnot].
  rewrite set_location_cons, bool_decide_eq_false_2 by done.
  by rewrite IH.
Qed.

Lemma set_location_present (ds : list location) (e : location) :
  e.1 ∈ ds.*1 →
  ∃ ds1, set_location (location_item <$> ds) e = location_item <$> ds1 ∧
         ds1.*1 = ds.*1.
Proof.
  induction ds as [|a ds IH]; intros Hin; [by apply elem_of_nil in Hin|].
  rewrite set_location_cons. case_bool_decide as Hk.
  - exists ((a.1, e.2) :: ds). by rewrite fmap_cons.
  - rewrite fmap_cons in Hin. apply elem_of_cons in Hin as [Heq | Hin]; [done|].
    destruct (IH Hin) as (ds1 & -> & Hkeys).
    exists (a :: ds1). by rewrite !fmap_cons, Hkeys.
Qed.

(** Assigning the items [es] one by one to a dict with the items [ds]:
    the size grows by [length es] exactly when none of the keys is set
    twice, and then the items are [ds] followed by [es]. *)
Lemma set_locations_spec (es ds : list location) :
  NoDup ds.*1 →
  ∃ ds', foldl set_location (location_item <$> ds) es = location_item <$> ds' ∧
         (length ds' ≤ length ds + length es)%nat ∧
         (NoDup (ds.*1 ++ es.*1)%list → ds' = (ds ++ es)%list) ∧
         (length ds' = (length ds + length es)%nat → NoDup (ds.*1 ++ es.*1)%list).
Proof.
  revert ds. induction es as [|e es IH]; intros ds Hnd.
  - exists ds. simpl. rewrite !app_nil_r, Nat.add_0_r. done.
  - cbn [foldl]. destruct (decide (e.1 ∈ ds.*1)) as [Hin | Hnot].
    + destruct (set_location_present ds e Hin) as (ds1 & -> & Hkeys).
      destruct (IH ds1) as (ds' & Hfold & Hle & _ & _); [by rewrite Hkeys|].
      assert (Hlen : length ds1 = length ds).
      { apply (f_equal length) in Hkeys. by rewrite !length_fmap in Hkeys. }
      exists ds'. split; [done|]. cbn [length]. split; [lia|]. split.
      * intros Hall. rewrite fmap_cons in Hall. apply NoDup_app in Hall as (_ & Hdis & _).
        exfalso. apply (Hdis _ Hin). left.
      * intros Heq. lia.
    + rewrite set_location_absent by done.
      assert (Hnd1 : NoDup ((ds ++ [e])%list).*1).
      { rewrite fmap_app. apply NoDup_app. split; [done|]. split.
        - intros k Hk Hk'. apply list_elem_of_singleton in Hk'. by subst.
        - apply NoDup_singleton. }
      destruct (IH (ds ++ [e])%list Hnd1) as (ds' & Hfold & Hle & Hsame & Hdistinct).
      rewrite length_app in Hle, Hdistinct. cbn [length] in Hle, Hdistinct |- *.
      assert (Hkeys : (((ds ++ [e])%list).*1 ++ es.*1 = ds.*1 ++ (e :: es).*1)%list)
        by (by rewrite fmap_app, fmap_cons, <- app_assoc).
      rewrite Hkeys in Hsame, Hdistinct.
      exists ds'. split; [done|]. split; [lia|]. split.
      * intros Hall. rewrite (Hsame Hall). by rewrite <- app_assoc.
      * intros Heq. apply Hdistinct. lia.
Qed.

Lemma createDLDataset_spec (n : Z) (r : rng) :
  0 ≤ n → NoDup (drawn_locations r (Z.to_nat n)).*1 →
  createDLDataset.__init__ n r
  = (inr (createDLDataset.Build (location_item <$> drawn_locations r (Z.to_nat n)) n),
     after_rounds r (Z.to_nat n) 2).
Proof.
  intros Hn Hnd. unfold createDLDataset.__init__, createDLDataset.add_locations.
  cbv [mbind Gen_bind mret Gen_ret py_assert]. cbn [createDLDataset.num_locations
    createDLDataset.dataset]. rewrite add_loop_spec.
  destruct (set_locations_spec (drawn_locations r (Z.to_nat n)) [] (NoDup_nil_2))
    as (ds' & Hfold & _ & Hsame & _).
  change (@nil (pyobj * pyobj)) with (location_item <$> []). rewrite Hfold.
  rewrite (Hsame Hnd). cbn [app].
  rewrite length_fmap. unfold drawn_locations. rewrite length_fmap, length_seq.
  rewrite Z2Nat.id by done. by rewrite Z.eqb_refl.
Qed.

(** X17. When the ids that [createDLDataset(n)] draws are pairwise
    distinct ([n] not negative), its closing [assert] passes and it
    returns a mapping with exactly the [n] drawn locations, in the order
    of the draws: ids between 0 and 9999, each with one of the four
    directions. *)
Theorem createDLDataset_distinct_ids (n : Z) (r : rng) :
  0 ≤ n → NoDup (drawn_locations r (Z.to_nat n)).*1 →
  createDLDataset.__init__ n r
  = (inr (createDLDataset.Build (location_item <$> drawn_locations r (Z.to_nat n)) n),
     after_rounds r (Z.to_nat n) 2) ∧
  length (drawn_locations r (Z.to_nat n)) = Z.to_nat n ∧
  Forall (λ e : location, 0 ≤ e.1 ≤ 9999) (drawn_locations r (Z.to_nat n)).
Proof.
  intros Hn Hnd. split; [by apply createDLDataset_spec|]. split.
  - unfold drawn_locations. by rewrite length_fmap, length_seq.
  - apply Forall_forall. intros e He.
    apply list_elem_of_fmap in He as (i & -> & _). unfold drawn_location. cbn [fst].
    pose proof (Z.mod_pos_bound (integers r (integers_drawn r + 2 * i)) 10000). lia.
Qed.

Lemma createDLDataset_distinct_ids_witness :
  0 ≤ 3 ∧ NoDup (drawn_locations counting 3).*1 ∧
  createDLDataset.__init__ 3 counting
  = (inr (createDLDataset.Build
            [(PInt 0, PTuple [PEnum east_bound; PPoint Samples.one_half Samples.one_half]);
             (PInt 2, PTuple [PEnum west_bound; PPoint Samples.one_half Samples.one_half]);
             (PInt 4, PTuple [PEnum east_bound; PPoint Samples.one_half Samples.one_half])]
            3),
     after_rounds counting 3 2).
Proof.
  assert (Hn : 0 ≤ 3) by lia.
  assert (Hnd : NoDup (drawn_locations counting (Z.to_nat 3)).*1)
    by (apply (bool_decide_unpack _); vm_compute; exact I).
  split; [exact Hn|]. split; [exact Hnd|].
  exact (proj1 (createDLDataset_distinct_ids 3 counting Hn Hnd)).
Defined.

(** X18. When two of the ids that [createDLDataset(n)] draws are the
    same, or [n] is negative, the mapping ends with fewer than [n]
    items and the closing [assert] of [add_locations] fails:
    the constructor raises [AssertionError]. *)
Theorem createDLDataset_repeated_id (n : Z) (r : rng) :
  n < 0 ∨ ¬ NoDup (drawn_locations r (Z.to_nat n)).*1 →
  createDLDataset.__init__ n r = (inl AssertionError, after_rounds r (Z.to_nat n) 2).
Proof.
  intros Hbad. unfold createDLDataset.__init__, createDLDataset.add_locations.
  cbv [mbind Gen_bind mret Gen_ret py_assert]. cbn [createDLDataset.num_locations
    createDLDataset.dataset]. rewrite add_loop_spec.
  destruct (set_locations_spec (drawn_locations r (Z.to_nat n)) [] (NoDup_nil_2))
    as (ds' & Hfold & Hle & _ & Hdistinct).
  change (@nil (pyobj * pyobj)) with (location_item <$> []). rewrite Hfold.
  rewrite length_fmap.
  assert (Hlen : length (drawn_locations r (Z.to_nat n)) = Z.to_nat n)
    by (unfold drawn_locations; by rewrite length_fmap, length_seq).
  rewrite Hlen in Hle, Hdistinct. cbn [length app] in Hle, Hdistinct.
  destruct (Z.eqb_spec (Z.of_nat (length ds')) n) as [Heq|Hne]; [|reflexivity].
  exfalso. destruct Hbad as [Hneg | Hdup]; [lia|].
  apply Hdup, Hdistinct. lia.
Qed.

Lemma createDLDataset_repeated_id_witness :
  ¬ NoDup (drawn_locations stuck (Z.to_nat 2)).*1 ∧
  createDLDataset.__init__ 2 stuck = (inl AssertionError, after_rounds stuck 2 2).
Proof.
  assert (Hdup : ¬ NoDup (drawn_locations stuck (Z.to_nat 2)).*1)
    by (apply (bool_decide_unpack _); vm_compute; exact I).
  split; [exact Hdup|].
  exact (createDLDataset_repeated_id 2 stuck (or_intror Hdup)).
Defined.

Lemma drawn_pairs_S r n :
  drawn_pairs r (S n)
  = drawn_pair r 0
    :: drawn_pairs (Rng (integers r) (reals r) (S (S (integers_drawn r))) (reals_drawn r)) n.
Proof.
  unfold drawn_pairs. rewrite <- cons_seq, fmap_cons. f_equal.
  rewrite <- fmap_S_seq, <- list_fmap_compose. apply list_fmap_ext.
  intros i x _. unfold drawn_pair, compose. simpl.
  repeat (f_equal; try lia).
Qed.

Lemma generate_loop_spec count (d : list pyobj) r :
  create_DITRS_Dataset.generate_loop count d r
  = (inr (d ++ (DetectorIdToRoadSection.obj <$> drawn_pairs r count))%list,
     after_rounds r count 0).
Proof.
  revert d r. induction count as [|count IH]; intros d r.
  - destruct r. unfold after_rounds. simpl. by rewrite app_nil_r, !Nat.add_0_r.
  - rewrite drawn_pairs_S. cbn [create_DITRS_Dataset.generate_loop].
    cbv [mbind Gen_bind mret Gen_ret randint py_assert isinstance_int].
    cbn [integers reals integers_drawn reals_drawn]. rewrite IH.
    unfold after_rounds. cbn [integers reals integers_drawn reals_drawn].
    f_equal; [|f_equal; lia].
    f_equal. rewrite fmap_cons, <- app_assoc. cbn [app]. do 2 f_equal.
    unfold drawn_pair, DetectorIdToRoadSection.obj. cbn.
    rewrite !Nat.add_0_r.
    replace (integers_drawn r + 1)%nat with (S (integers_drawn r)) by lia.
    reflexivity.
Qed.

Lemma create_DITRS_Dataset_spec (n : Z) (r : rng) :
  0 ≤ n →
  create_DITRS_Dataset.__init__ n r
  = (inr (create_DITRS_Dataset.Build
            (DetectorIdToRoadSection.obj <$> drawn_pairs r (Z.to_nat n)) n),
     after_rounds r (Z.to_nat n) 0) ∧
  length (drawn_pairs r (Z.to_nat n)) = Z.to_nat n.
Proof.
  intros Hn.
  assert (Hlen : length (drawn_pairs r (Z.to_nat n)) = Z.to_nat n)
    by (unfold drawn_pairs; by rewrite length_fmap, length_seq).
  split; [|done].
  unfold create_DITRS_Dataset.__init__, create_DITRS_Dataset.generate_dataset.
  cbv [mbind Gen_bind mret Gen_ret py_assert].
  cbn [create_DITRS_Dataset.datasize create_DITRS_Dataset.dataset].
  rewrite generate_loop_spec. cbn [app].
  rewrite length_fmap, Hlen, Z2Nat.id by done. by rewrite Z.eqb_refl.
Qed.

(** X19. [create_DITRS_Dataset(n)] never fails for [n] not negative,
    whatever numbers it draws: its asserts pass, and it returns a list
    of exactly [n] records whose detector and section ids are between 0
    and 9999. *)
Theorem create_DITRS_Dataset_succeeds (n : Z) (r : rng) :
  0 ≤ n →
  create_DITRS_Dataset.__init__ n r
  = (inr (create_DITRS_Dataset.Build
            (DetectorIdToRoadSection.obj <$> drawn_pairs r (Z.to_nat n)) n),
     after_rounds r (Z.to_nat n) 0) ∧
  length (drawn_pairs r (Z.to_nat n)) = Z.to_nat n ∧
  Forall (λ p, 0 ≤ DetectorIdToRoadSection.detector_id p ≤ 9999 ∧
               0 ≤ DetectorIdToRoadSection.section_id p ≤ 9999)
         (drawn_pairs r (Z.to_nat n)).
Proof.
  intros Hn. destruct (create_DITRS_Dataset_spec n r Hn) as [Hgen Hlen].
  split; [done|]. split; [done|].
  apply Forall_forall. intros p Hp.
  apply list_elem_of_fmap in Hp as (i & -> & _). unfold drawn_pair.
  cbn [DetectorIdToRoadSection.detector_id DetectorIdToRoadSection.section_id].
  pose proof (Z.mod_pos_bound (integers r (integers_drawn r + 2 * i)) 10000).
  pose proof (Z.mod_pos_bound (integers r (integers_drawn r + 2 * i + 1)) 10000).
  lia.
Qed.

Lemma create_DITRS_Dataset_succeeds_witness :
  0 ≤ 2 ∧
  create_DITRS_Dataset.__init__ 2 counting
  = (inr (create_DITRS_Dataset.Build
            [DetectorIdToRoadSection.obj (DetectorIdToRoadSection.Build 0 1);
             DetectorIdToRoadSection.obj (DetectorIdToRoadSection.Build 2 3)] 2),
     after_rounds counting 2 0).
Proof.
  assert (Hn : 0 ≤ 2) by lia. split; [exact Hn|].
  exact (proj1 (create_DITRS_Dataset_succeeds 2 counting Hn)).
Defined.

(** ** The generators and the round trip *)

(** The round trip of a populated, regular dataset, for the generated
    datasets below. *)
Lemma round_trip_dataset (d : dataset) (year : pyobj) (filepath : string) (w : world) :
  populated d → regular d → filepath ≠ "" →
  round_trip (instance_of d) (constructor_of d year) filepath w.
Proof.
  intros Hpop Hreg Hpath. unfold round_trip.
  assert (∃ v n, primary_field (instance_of d) = Some v ∧ py_len v = Ok (S n))
    as (v & n & Hv & Hlen).
  { destruct d as [[|e es] y|[|e es]|[|e es]|[|e es] y]; try done; simpl;
      eexists _, _; split; reflexivity. }
  destruct (export_populated _ filepath w _ _ Hv Hlen Hpath) as (vals & Hvals & Hexport).
  eexists _, (match d with
              | OutputFlow outputs _ => instance_of (OutputFlow outputs None)
              | _ => instance_of d
              end).
  split; [exact Hexport|]. split; [|by apply eq_same].
  pose proof Hpath as Hne. apply String.eqb_neq in Hne.
  destruct d as [[|e es] y|[|e es]|[|e es]|[|e es] y]; try done;
    injection Hvals as <-; unfold_construct;
    rewrite Hne, (file_at_insert _ _ _ _ Hpath); reflexivity.
Qed.

(** X20. The positive half of [test_DITRS_import_equals_export] passes
    whenever its file can be opened for writing: for every [n] of at
    least 1, every source of random numbers and every such path, the
    list that [create_DITRS_Dataset(n)] generates, once assigned to a
    [DetectorIdToRoadSections], is exported, imported back through the
    constructor and found equal to the original. *)
Theorem generated_DITRS_round_trip (n : Z) (r : rng) (filepath : string) (w : world) :
  1 ≤ n → can_open_for_writing w filepath →
  ∃ generated r',
    create_DITRS_Dataset.__init__ n r = (inr generated, r') ∧
    round_trip
      (DITRS (DetectorIdToRoadSections.Build
                (Some (PList (create_DITRS_Dataset.dataset generated)))))
      New_DetectorIdToRoadSections filepath w.
Proof.
  intros Hn Hpath%can_open_for_writing_nonempty.
  destruct (create_DITRS_Dataset_spec n r ltac:(lia)) as [Hgen Hlen].
  eexists _, _. split; [exact Hgen|]. cbn [create_DITRS_Dataset.dataset].
  apply (round_trip_dataset (RoadSections (drawn_pairs r (Z.to_nat n))) (PInt 0));
    [|exact I|done].
  simpl. intros Hnil. rewrite Hnil in Hlen. simpl in Hlen. lia.
Qed.

Lemma generated_DITRS_round_trip_witness :
  1 ≤ 2 ∧ can_open_for_writing Samples.nothing "2.txt" ∧
  ∃ generated r',
    create_DITRS_Dataset.__init__ 2 counting = (inr generated, r') ∧
    round_trip
      (DITRS (DetectorIdToRoadSections.Build
                (Some (PList (create_DITRS_Dataset.dataset generated)))))
      New_DetectorIdToRoadSections "2.txt" Samples.nothing.
Proof.
  assert (Hn : 1 ≤ 2) by lia.
  assert (Hpath : can_open_for_writing Samples.nothing "2.txt") by reflexivity.
  split; [exact Hn|]. split; [exact Hpath|].
  exact (generated_DITRS_round_trip 2 counting "2.txt" Samples.nothing Hn Hpath).
Defined.

(** X21. The positive half of [test_DL_import_equals_export] passes
    whenever the generator does and the file can be opened for writing:
    when the [n] drawn ids are pairwise distinct ([n] at least 1), no
    drawn float is NaN and the path can be opened for writing, the
    mapping that [createDLDataset(n)] generates, once assigned to a
    [DetectorsLocation], is exported, imported back through the
    constructor and found equal to the original. *)
Theorem generated_DL_round_trip (n year : Z) (year' : pyobj) (r : rng)
    (filepath : string) (w : world) :
  1 ≤ n → NoDup (drawn_locations r (Z.to_nat n)).*1 →
  (∀ i, is_nan (reals r i) = false) → can_open_for_writing w filepath →
  ∃ generated r',
    createDLDataset.__init__ n r = (inr generated, r') ∧
    round_trip
      (DL (DetectorsLocation.Build
             (Some (PDict (createDLDataset.dataset generated))) (PInt year)))
      (New_DetectorsLocation year') filepath w.
Proof.
  intros Hn Hnd Hreal Hpath%can_open_for_writing_nonempty.
  eexists _, _. split; [apply createDLDataset_spec; [lia | done]|].
  cbn [createDLDataset.dataset].
  apply (round_trip_dataset (Locations (drawn_locations r (Z.to_nat n)) year) year');
    [| |done].
  - simpl. intros Hnil. apply (f_equal length) in Hnil.
    unfold drawn_locations in Hnil. rewrite length_fmap, length_seq in Hnil.
    simpl in Hnil. lia.
  - split; [done|]. apply Forall_forall. intros e He.
    apply list_elem_of_fmap in He as (i & -> & _). unfold drawn_location. cbn [fst snd].
    by rewrite !Hreal.
Qed.

Lemma generated_DL_round_trip_witness :
  1 ≤ 3 ∧ NoDup (drawn_locations counting (Z.to_nat 3)).*1 ∧
  (∀ i, is_nan (reals counting i) = false) ∧
  can_open_for_writing Samples.nothing "2.txt" ∧
  ∃ generated r',
    createDLDataset.__init__ 3 counting = (inr generated, r') ∧
    round_trip
      (DL (DetectorsLocation.Build
             (Some (PDict (createDLDataset.dataset generated))) (PInt 2021)))
      (New_DetectorsLocation (PInt 2021)) "2.txt" Samples.nothing.
Proof.
  assert (Hn : 1 ≤ 3) by lia.
  assert (Hnd : NoDup (drawn_locations counting (Z.to_nat 3)).*1)
    by (apply (bool_decide_unpack _); vm_compute; exact I).
  assert (Hreal : ∀ i, is_nan (reals counting i) = false) by (intros i; reflexivity).
  assert (Hpath : can_open_for_writing Samples.nothing "2.txt") by reflexivity.
  split; [exact Hn|]. split; [exact Hnd|]. split; [exact Hreal|]. split; [exact Hpath|].
  exact (generated_DL_round_trip 3 2021 (PInt 2021) counting "2.txt" Samples.nothing
           Hn Hnd Hreal Hpath).
Defined.

(** X22. The negative half of [test_DITRS_import_equals_export] compares
    two generated lists of the same size: the comparison never raises,
    and it answers [True], failing the test, exactly when the second
    generator drew the same pairs as the first, in the same order. *)
Theorem generated_DITRS_equal_iff_same_draws (n : Z) (r1 r2 : rng) :
  0 ≤ n →
  ∃ g1 g2 r1' r2' b,
    create_DITRS_Dataset.__init__ n r1 = (inr g1, r1') ∧
    create_DITRS_Dataset.__init__ n r2 = (inr g2, r2') ∧
    __eq__ (DITRS (DetectorIdToRoadSections.Build
                     (Some (PList (create_DITRS_Dataset.dataset g1)))))
           (DITRS (DetectorIdToRoadSections.Build
                     (Some (PList (create_DITRS_Dataset.dataset g2))))) = Ok b ∧
    (b = true ↔ drawn_pairs r1 (Z.to_nat n) = drawn_pairs r2 (Z.to_nat n)).
Proof.
  intros Hn.
  destruct (create_DITRS_Dataset_spec n r1 Hn) as [Hg1 _].
  destruct (create_DITRS_Dataset_spec n r2 Hn) as [Hg2 _].
  eexists _, _, _, _, _. split; [exact Hg1|]. split; [exact Hg2|].
  cbn [create_DITRS_Dataset.dataset]. split.
  - apply (DetectorIdToRoadSections_eq_typed (drawn_pairs r1 (Z.to_nat n))
             (drawn_pairs r2 (Z.to_nat n))).
  - apply all2_eq, DetectorIdToRoadSection_eqb_eq.
Qed.

Lemma generated_DITRS_equal_iff_same_draws_witness :
  0 ≤ 2 ∧
  ∃ g1 g2 r1' r2' b,
    create_DITRS_Dataset.__init__ 2 counting = (inr g1, r1') ∧
    create_DITRS_Dataset.__init__ 2 stuck = (inr g2, r2') ∧
    __eq__ (DITRS (DetectorIdToRoadSections.Build
                     (Some (PList (create_DITRS_Dataset.dataset g1)))))
           (DITRS (DetectorIdToRoadSections.Build
                     (Some (PList (create_DITRS_Dataset.dataset g2))))) = Ok b ∧
    (b = true ↔ drawn_pairs counting (Z.to_nat 2) = drawn_pairs stuck (Z.to_nat 2)).
Proof.
  assert (Hn : 0 ≤ 2) by lia. split; [exact Hn|].
  exact (generated_DITRS_equal_iff_same_draws 2 counting stuck Hn).
Defined.

(** ** What the import check does not rule out *)




(** ** What export leaves alone *)

Lemma construct_file_at call filepath w w' :
  file_at w filepath = file_at w' filepath →
  construct call filepath w = construct call filepath w'.
Proof. intros Hf. destruct call; unfold_construct; by rewrite Hf. Qed.

(** X24. Whatever its outcome, [export_to_file] touches no file but its
    target and calls [warnings.warn] at most once: every path that names
    another file than the target holds the same file afterwards, so that
    constructing an instance from such a path gives the same result
    after the export as before.  (A path stands for the file that it
    names: the paths that name another file than the target are the
    paths that differ from it.) *)
Theorem export_frame self target w filepath call :
  filepath ≠ target →
  let w' := (export_to_file self target w).2 in
  file_at w' filepath = file_at w filepath ∧
  construct call filepath w' = construct call filepath w ∧
  (warnings w' = warnings w ∨ warnings w' = (warnings w ++ [already_exists])%list).
Proof.
  intros Hne w'.
  assert (Hfile : file_at w' filepath = file_at w filepath ∧
                  (warnings w' = warnings w ∨
                   warnings w' = (warnings w ++ [already_exists])%list)).
  { subst w'. destruct self as [x|x|x|x]; simpl; unfold_export.
    all: match goal with |- context [attribute ?f] => destruct f as [v|] end;
      simpl; [|auto].
    all: destruct (py_len v) as [[|n]|]; simpl; [auto| |auto].
    all: destruct (file_at w target) as [old|]; simpl.
    all: destruct (String.eqb target ""); simpl; [auto|].
    all: unfold file_at; simpl; rewrite ?app_nil_r.
    all: split; [|auto].
    all: destruct (String.eqb filepath ""); [done|].
    all: rewrite ?lookup_alter_ne by done; by rewrite lookup_insert_ne. }
  destruct Hfile as [Hfile Hwarn]. split; [done|]. split; [|done].
  by apply construct_file_at.
Qed.

Lemma export_frame_witness :
  let self := instance_of Samples.two_locations in
  let w := Samples.with_wrong_dataset in
  "5.txt" ≠ "3.txt" ∧
  file_at (export_to_file self "3.txt" w).2 "5.txt" = file_at w "5.txt" ∧
  construct New_GroundFlowData "5.txt" (export_to_file self "3.txt" w).2
  = construct New_GroundFlowData "5.txt" w.
Proof.
  intros self w. assert (Hne : "5.txt" ≠ "3.txt") by discriminate.
  destruct (export_frame self "3.txt" w "5.txt" New_GroundFlowData Hne) as (H1 & H2 & _).
  split; [exact Hne|]. split; [exact H1 | exact H2].
Defined.
